(** * openhab-assistant: the voice command dispatcher of [assistant_OH.py]

    A shallow embedding of [src/assistant_OH.py]: the Python string
    operations the handler relies on, the REST helpers [openhab_send] and
    [openhab_get_state], the event handler [MyAssistant._process_event] and
    the button callback [MyAssistant._on_button_pressed], followed by the
    properties of the command dispatch that the specification states.

    Conventions of the embedding.
    - A Python [str] is a [string]; a character is a code point below 256.
      The built-ins behave as in CPython 3.11.
    - Everything the handler does to the outside (speech, standard output,
      HTTP requests, the assistant library, the shell) is recorded, in
      program order, in a trace of [effect]s.
    - The REST backend is an arbitrary state machine: a request is answered
      from, and may change, a world of an abstract type.  A request is always
      answered (transport failures of [requests] are outside the model).
    - A Python exception ends the handler: the result is [Raised e], and the
      trace holds what happened before it. *)

From Stdlib Require Import ZArith List String Ascii Bool Lia.
From Stdlib Require Import Numbers.DecimalString Numbers.DecimalPos.
Import ListNotations.

Local Open Scope string_scope.
Local Open Scope Z_scope.

(* ------------------------------------------------------------------ *)
(** ** Python strings *)

Module PyStr.

(** [c.lower()] for one code point below 256: the ASCII capitals and the
    Latin-1 capitals (all of 0xC0..0xDE except the multiplication sign). *)
Definition lower_char (c : ascii) : ascii :=
  let n := N_of_ascii c in
  if ((65 <=? n) && (n <=? 90))%N
     || ((192 <=? n) && (n <=? 222) && negb (n =? 215))%N
  then ascii_of_N (n + 32)
  else c.

(** [s.lower()] *)
Fixpoint lower (s : string) : string :=
  match s with
  | EmptyString => EmptyString
  | String c s' => String (lower_char c) (lower s')
  end.

(** [s.startswith(p)] *)
Definition startswith (s p : string) : bool := String.prefix p s.

(** [sub in s] *)
Fixpoint contains (sub s : string) : bool :=
  String.prefix sub s
  || match s with
     | EmptyString => false
     | String _ s' => contains sub s'
     end.

(** [s.split(sep)] for a one-character separator: never the empty list. *)
Fixpoint split (sep : ascii) (s : string) : list string :=
  match s with
  | EmptyString => [EmptyString]
  | String c s' =>
      if Ascii.eqb c sep then EmptyString :: split sep s'
      else match split sep s' with
           | field :: fields => String c field :: fields
           | [] => [String c EmptyString]
           end
  end.

(** [sep.join(fields)] *)
Fixpoint join (sep : string) (fields : list string) : string :=
  match fields with
  | [] => EmptyString
  | [f] => f
  | f :: fs => f ++ sep ++ join sep fs
  end.

(** [str(n)] for an [int]: the canonical decimal numeral.  (The limit of
    [max_str_digits] digits that CPython 3.11 puts on [str] as well is never
    reached by the handler: what it prints is 0, 100, or nearer to zero than
    an integer that [int] has read.) *)
Definition str (n : Z) : string := NilZero.string_of_int (Z.to_int n).

(** White space as [int()] skips it around a numeral: the ASCII white space
    (tab to carriage return, and the space) and, of the other code points
    below 256, the next-line control and the no-break space.  The separators
    U+001C to U+001F are not skipped. *)
Definition is_space (c : ascii) : bool :=
  let n := N_of_ascii c in
  (((9 <=? n) && (n <=? 13)) || (n =? 32) || (n =? 133) || (n =? 160))%N.

Definition is_digit (c : ascii) : bool :=
  let n := N_of_ascii c in ((48 <=? n) && (n <=? 57))%N.

Fixpoint lstrip (s : string) : string :=
  match s with
  | EmptyString => EmptyString
  | String c s' => if is_space c then lstrip s' else s
  end.

Fixpoint rstrip (s : string) : string :=
  match s with
  | EmptyString => EmptyString
  | String c s' =>
      match rstrip s' with
      | EmptyString => if is_space c then EmptyString else String c EmptyString
      | r => String c r
      end
  end.

Definition strip (s : string) : string := rstrip (lstrip s).

(** The digits of an integer literal: at least one digit, and single
    underscores allowed between digits only.  Returns the digits alone. *)
Fixpoint literal_digits (after_digit : bool) (s : string) : option string :=
  match s with
  | EmptyString => if after_digit then Some EmptyString else None
  | String c s' =>
      if is_digit c then option_map (String c) (literal_digits true s')
      else if Ascii.eqb c "_" && after_digit then literal_digits false s'
      else None
  end.

(** The most digits [int()] reads: the default of [sys.int_max_str_digits]
    in CPython 3.11 and later. *)
Definition max_str_digits : N := 4300.

Definition magnitude (s : string) : option Z :=
  match literal_digits false s with
  | Some ds =>
      if (N.of_nat (String.length ds) <=? max_str_digits)%N
      then option_map Z.of_uint (NilEmpty.uint_of_string ds)
      else None
  | None => None
  end.

(** [int(s)] in base 10, as CPython 3.11 reads it: surrounding white space,
    an optional sign, then the digits, at most [max_str_digits] of them.
    [None] stands for [ValueError]. *)
Definition int (s : string) : option Z :=
  match strip s with
  | String "+" r => magnitude r
  | String "-" r => option_map Z.opp (magnitude r)
  | t => magnitude t
  end.

(** The digits [str] prints for [n], sign apart. *)
Definition printed_digits (n : Z) : nat :=
  match n with
  | Z0 => 1
  | Zpos p | Zneg p => Decimal.nb_digits (Pos.to_uint p)
  end.

(** [s.count(c)] for one character. *)
Fixpoint count (c : ascii) (s : string) : nat :=
  match s with
  | EmptyString => 0
  | String a s' => (if Ascii.eqb a c then 1 else 0) + count c s'
  end.

Fixpoint all_chars (p : ascii -> bool) (s : string) : bool :=
  match s with
  | EmptyString => true
  | String a s' => p a && all_chars p s'
  end.

(** The text before the first space: the first word of an utterance. *)
Fixpoint first_token (s : string) : string :=
  match s with
  | EmptyString => EmptyString
  | String a s' => if Ascii.eqb a " " then EmptyString else String a (first_token s')
  end.

End PyStr.

(* ------------------------------------------------------------------ *)
(** ** Effects, exceptions and the handler monad *)

(** What the program does to the outside, one constructor per collaborator. *)
Inductive effect : Type :=
| Say (message : string)            (* aiy.audio.say(message) *)
| Print (line : string)             (* print(...) on standard output *)
| Post (url data : string)          (* requests.post(url, headers, data) *)
| Get (url : string)                (* requests.get(url) *)
| Status (status : string)          (* status_ui.status(status) *)
| OnPress                           (* get_button().on_press(callback) *)
| StartConversation                 (* assistant.start_conversation() *)
| StopConversation                  (* assistant.stop_conversation() *)
| Call (command : string).          (* subprocess.call(command, shell=True) *)

Inductive exn : Type :=
| IndexError
| ValueError
| SystemExit (code : Z).

Inductive outcome (A : Type) : Type :=
| Returned (a : A)
| Raised (e : exn).
Arguments Returned {A} a.
Arguments Raised {A} e.

(** The answer of the backend to a POST: [r.status_code] and [r.text]. *)
Record Response : Type := { status_code : Z; text : string }.

(** The [requests] module against a backend whose state has type [W], and
    what the process sees of its terminal. *)
Record Requests (W : Type) : Type := {
  requests_get : string -> W -> string * W;
  requests_post : string -> string -> W -> Response * W;
  stdout_isatty : bool
}.
Arguments requests_get {W}.
Arguments requests_post {W}.
Arguments stdout_isatty {W}.

(** The CONFIGURATION block of the script. *)
Record Config : Type := {
  openhab_ip : string;
  openhab_port : string;
  all_lights_group : string;
  light_colors : list string;
  light_color_temps : list string;
  lights_ids : list string;
  custom_hotword : string;
  debug : Z
}.

(** The values the script ships with. *)
Definition shipped : Config := {|
  openhab_ip := "localhost";
  openhab_port := "8080";
  all_lights_group := "Lights_ALL";
  light_colors := ["hue_0210_00178828e0d0_1_color"];
  light_color_temps := ["hue_0210_00178828e0d0_1_color_temperature"];
  lights_ids := ["office"];
  custom_hotword := "home";
  debug := 1
|}.

Section Monad.

Context {W : Type}.

(** A computation: from the backend's state to a result, the backend's new
    state and the effects performed, oldest first. *)
Definition M (A : Type) : Type := W -> outcome A * W * list effect.

Definition ret {A} (a : A) : M A := fun w => (Returned a, w, []).

Definition bind {A B} (m : M A) (k : A -> M B) : M B := fun w =>
  match m w with
  | (Returned a, w1, t1) =>
      match k a w1 with
      | (r, w2, t2) => (r, w2, (t1 ++ t2)%list)
      end
  | (Raised e, w1, t1) => (Raised e, w1, t1)
  end.

Definition raise {A} (e : exn) : M A := fun w => (Raised e, w, []).

Definition emit (e : effect) : M unit := fun w => (Returned tt, w, [e]).

End Monad.

Arguments M : clear implicits.

Declare Scope monad_scope.
Delimit Scope monad_scope with monad.
Notation "x <- m ;; k" := (bind m (fun x => k))
  (at level 61, m at next level, right associativity) : monad_scope.
Notation "m ;; k" := (bind m (fun _ => k))
  (at level 61, right associativity) : monad_scope.
Local Open Scope monad_scope.

(** Projections of a run. *)
Definition result_of {A W} (r : outcome A * W * list effect) : outcome A := fst (fst r).
Definition world_of {A W} (r : outcome A * W * list effect) : W := snd (fst r).
Definition trace_of {A W} (r : outcome A * W * list effect) : list effect := snd r.

(** The requests a trace makes to the backend. *)
Definition is_network (e : effect) : bool :=
  match e with
  | Post _ _ | Get _ => true
  | _ => false
  end.

Definition network_calls (t : list effect) : list effect := filter is_network t.

Definition is_post (e : effect) : bool :=
  match e with Post _ _ => true | _ => false end.

Definition is_say (e : effect) : bool :=
  match e with Say _ => true | _ => false end.

(* ------------------------------------------------------------------ *)
(** ** Python built-ins used by the handler *)

(** Truth value of an [int] in a condition. *)
Definition truthy (n : Z) : bool := negb (n =? 0).

(** [any(iterable)] *)
Definition any (iterable : list bool) : bool := existsb (fun element => element) iterable.

(** [any_idx(iterable)]: the position of the first true element, [None] when
    the loop ends without returning. *)
Fixpoint any_idx_from (idx : nat) (iterable : list bool) : option nat :=
  match iterable with
  | [] => None
  | element :: rest => if element then Some idx else any_idx_from (idx + 1) rest
  end.

Definition any_idx (iterable : list bool) : option nat := any_idx_from 0 iterable.

(** [any(token in text for token in tokens)] *)
Definition any_in (tokens : list string) (text : string) : bool :=
  any (map (fun token => PyStr.contains token text) tokens).

(** [any_idx(token in text for token in tokens)] *)
Definition idx_in (tokens : list string) (text : string) : option nat :=
  any_idx (map (fun token => PyStr.contains token text) tokens).

Section Handler.

Context {W : Type}.
Variable requests : Requests W.
Variable cfg : Config.

(** [l[i]] on a list of strings, with its [IndexError]. *)
Definition getitem (l : list string) (i : nat) : M W string :=
  match nth_error l i with
  | Some x => ret x
  | None => raise IndexError
  end.

(** [int(s)], with its [ValueError]. *)
Definition int_of (s : string) : M W Z :=
  match PyStr.int s with
  | Some n => ret n
  | None => raise ValueError
  end.

Definition say (message : string) : M W unit := emit (Say message).
Definition print (line : string) : M W unit := emit (Print line).

(** [if (debug): print(line)] *)
Definition debug_print (line : string) : M W unit :=
  if truthy (debug cfg) then print line else ret tt.

Definition item_url (item : string) : string :=
  "http://" ++ openhab_ip cfg ++ ":" ++ openhab_port cfg ++ "/rest/items/" ++ item.

(** [requests.post(url, headers=headers, data=state)], answered; the headers
    are the constants [content-type: text/plain] and [accept:
    application/json].  A request that gets no answer raises inside
    [requests]; such runs are outside the model. *)
Definition post (url state : string) : M W Response := fun w =>
  let (r, w') := requests_post requests url state w in
  (Returned r, w', [Post url state]).

(** [requests.get(url).text], answered (see [post]). *)
Definition get (url : string) : M W string := fun w =>
  let (body, w') := requests_get requests url w in
  (Returned body, w', [Get url]).

Definition openhab_send (item state : string) : M W unit :=
  let url := item_url item in
  r <- post url state ;;
  debug_print ("REQUEST [POST]: " ++ url ++ " STATE: " ++ state) ;;
  if status_code r =? 200 then
    say "OK"
  else if status_code r =? 400 then
    debug_print ("ERROR [HTTP 400]: " ++ text r) ;;
    say "There has been an error: bad command"
  else if status_code r =? 404 then
    debug_print ("ERROR [HTTP 404]: " ++ text r) ;;
    say "There has been an error: unknown item"
  else
    say "Command failed".

Definition openhab_get_state (item : string) : M W string :=
  get (item_url item ++ "/state").

Definition power_off_pi : M W unit :=
  say "Powering off the system. Good bye!" ;;
  emit (Call "sudo shutdown now").

Definition reboot_pi : M W unit :=
  say "Rebooting the system. Hold on!" ;;
  emit (Call "sudo reboot").

Definition not_recognized : M W unit :=
  say "Sorry, I cannot do that yet".

Definition device_not_found : M W unit :=
  say "Sorry, I don't know that device".

(** The new state written by a colour command: [hue + ",100," + current_state[2]]. *)
Definition set_color (direct_to_color hue : string) (current_state : list string) : M W unit :=
  brightness <- getitem current_state 2 ;;
  let new_state := hue ++ ",100," ++ brightness in
  openhab_send direct_to_color new_state.

(** Lines 209-245: a command for a specific light of the direct-state group. *)
Definition specific_light (text : string) : M W unit :=
  match idx_in (lights_ids cfg) text with
  | Some idx =>
      direct_to_color <- getitem (light_colors cfg) idx ;;
      direct_to_color_temp <- getitem (light_color_temps cfg) idx ;;
      fetched <- openhab_get_state direct_to_color ;;
      let current_state := PyStr.split "," fetched in
      if PyStr.contains " on " text then
        openhab_send direct_to_color "ON"
      else if PyStr.contains " off " text then
        openhab_send direct_to_color "OFF"
      else if PyStr.contains " red " text then
        set_color direct_to_color "0" current_state
      else if PyStr.contains " yellow " text then
        set_color direct_to_color "100" current_state
      else if PyStr.contains " blue " text then
        set_color direct_to_color "260" current_state
      else if PyStr.contains " pink " text then
        set_color direct_to_color "340" current_state
      else if PyStr.contains " green " text then
        set_color direct_to_color "140" current_state
      else if PyStr.contains " cool " text then
        openhab_send direct_to_color_temp "0"
      else if PyStr.contains " warm " text then
        openhab_send direct_to_color_temp "100"
      else if PyStr.contains " natural " text then
        openhab_send direct_to_color_temp "50"
      else
        not_recognized
  | None => device_not_found
  end.

(** Lines 197-252: power, turn, set, change. *)
Definition direct_state_group (text : string) : M W unit :=
  if PyStr.contains " all " text && PyStr.contains " lights " text then
    if PyStr.contains " on " text then
      openhab_send (all_lights_group cfg) "ON"
    else if PyStr.contains " off " text then
      openhab_send (all_lights_group cfg) "OFF"
    else
      not_recognized
  else if PyStr.contains " light " text then
    specific_light text
  else if PyStr.contains " system " text then
    if PyStr.contains " off " text then power_off_pi else ret tt
  else
    not_recognized.

(** Lines 256-271: increase, raise. *)
Definition increase_group (text : string) : M W unit :=
  if PyStr.contains " brightness " text && PyStr.contains "light" text then
    match idx_in (lights_ids cfg) text with
    | Some idx =>
        direct_to_color <- getitem (light_colors cfg) idx ;;
        fetched <- openhab_get_state direct_to_color ;;
        let current_state := PyStr.split "," fetched in
        field2 <- getitem current_state 2 ;;
        brightness <- int_of field2 ;;
        let new_brightness := brightness + 25 in
        let new_brightness := if new_brightness >? 100 then 100 else new_brightness in
        field0 <- getitem current_state 0 ;;
        field1 <- getitem current_state 1 ;;
        let new_state := field0 ++ "," ++ field1 ++ "," ++ PyStr.str new_brightness in
        openhab_send direct_to_color new_state
    | None => device_not_found
    end
  else
    not_recognized.

(** Lines 275-290: decrease, reduce. *)
Definition decrease_group (text : string) : M W unit :=
  if PyStr.contains " brightness " text && PyStr.contains "light" text then
    match idx_in (lights_ids cfg) text with
    | Some idx =>
        direct_to_color <- getitem (light_colors cfg) idx ;;
        fetched <- openhab_get_state direct_to_color ;;
        let current_state := PyStr.split "," fetched in
        field2 <- getitem current_state 2 ;;
        brightness <- int_of field2 ;;
        let new_brightness := brightness - 25 in
        let new_brightness := if new_brightness <? 0 then 0 else new_brightness in
        field0 <- getitem current_state 0 ;;
        field1 <- getitem current_state 1 ;;
        let new_state := field0 ++ "," ++ field1 ++ "," ++ PyStr.str new_brightness in
        openhab_send direct_to_color new_state
    | None => device_not_found
    end
  else
    not_recognized.

(** Lines 293-295: reboot, restart. *)
Definition reboot_group (text : string) : M W unit :=
  if PyStr.contains " system " text then reboot_pi else ret tt.

(** Lines 195-297, CHECK ACTION: the text is lower case, starts with the
    hotword and ends with the appended space. *)
Definition dispatch (text : string) : M W unit :=
  if any_in [" turn "; " power "; " set "; " change "] text then
    direct_state_group text
  else if any_in [" increase "; " raise "] text then
    increase_group text
  else if any_in [" decrease "; " reduce "] text then
    decrease_group text
  else if any_in [" reboot "; " restart "] text then
    reboot_group text
  else
    not_recognized.

(** The instance attributes of [MyAssistant] that the handlers read. *)
Record MyAssistant : Type := { can_start_conversation : bool }.

(** [MyAssistant.__init__] *)
Definition init : MyAssistant := {| can_start_conversation := false |}.

(** An event of the assistant library: its type and, where the handler looks
    at them, its arguments ([None] for absent or empty [event.args]):
    the recognized text, the [is_fatal] flag. *)
Inductive Event : Type :=
| ON_START_FINISHED
| ON_CONVERSATION_TURN_STARTED
| ON_END_OF_UTTERANCE
| ON_RECOGNIZING_SPEECH_FINISHED (args : option string)
| ON_CONVERSATION_TURN_FINISHED
| ON_ASSISTANT_ERROR (args : option bool)
| ON_OTHER.

Definition nl : string := String "010"%char EmptyString.
Definition dq : string := String "034"%char EmptyString.

Definition banner : string :=
  nl ++ "Say " ++ dq ++ "OK, Google" ++ dq ++ " or press the button, then speak. "
  ++ nl ++ "Trigger the openHAB actions by saying " ++ dq ++ custom_hotword cfg ++ dq
  ++ " at the beginning of each command."
  ++ nl ++ "Press Ctrl+C to quit." ++ nl.

(** Lines 186-297: the recognized text. *)
Definition recognized (said : string) : M W unit :=
  print ("You said: " ++ said) ;;
  let text := PyStr.lower said in
  if PyStr.startswith text (custom_hotword cfg) then
    emit StopConversation ;;
    let text := text ++ " " in
    dispatch text
  else
    ret tt.

(** [MyAssistant._process_event]: returns the object as the handler leaves it. *)
Definition process_event (self : MyAssistant) (event : Event) : M W MyAssistant :=
  match event with
  | ON_START_FINISHED =>
      emit (Status "ready") ;;
      let self := {| can_start_conversation := true |} in
      emit OnPress ;;
      (if stdout_isatty requests then print banner else ret tt) ;;
      ret self
  | ON_CONVERSATION_TURN_STARTED =>
      let self := {| can_start_conversation := false |} in
      emit (Status "listening") ;;
      ret self
  | ON_END_OF_UTTERANCE =>
      emit (Status "thinking") ;;
      ret self
  | ON_RECOGNIZING_SPEECH_FINISHED (Some said) =>
      recognized said ;;
      ret self
  | ON_CONVERSATION_TURN_FINISHED =>
      emit (Status "ready") ;;
      ret {| can_start_conversation := true |}
  | ON_ASSISTANT_ERROR (Some is_fatal) =>
      if is_fatal then raise (SystemExit 1) else ret self
  | ON_RECOGNIZING_SPEECH_FINISHED None
  | ON_ASSISTANT_ERROR None
  | ON_OTHER => ret self
  end.

(** [MyAssistant._on_button_pressed] *)
Definition on_button_pressed (self : MyAssistant) : M W MyAssistant :=
  if can_start_conversation self then
    emit StartConversation ;;
    ret self
  else
    ret self.

End Handler.

(* ------------------------------------------------------------------ *)
(** ** A backend for concrete runs *)

(** A backend without state: every GET is answered with [body], every POST
    with the status [code] and an empty text; standard output is a terminal. *)
Definition canned (body : string) (code : Z) : Requests unit := {|
  requests_get := fun _ w => (body, w);
  requests_post := fun _ _ w => ({| status_code := code; text := EmptyString |}, w);
  stdout_isatty := true
|}.

(** One recognized utterance, handled by the shipped configuration. *)
Definition hear (body : string) (code : Z) (said : string) :
  outcome MyAssistant * unit * list effect :=
  process_event (canned body code) shipped init
    (ON_RECOGNIZING_SPEECH_FINISHED (Some said)) tt.

(* ------------------------------------------------------------------ *)
(** ** Classification of a command text

    The conditions of the handler's branches, named.  [text] is what
    [dispatch] receives: lower case, with the appended space. *)

Definition direct_verb (text : string) : bool :=
  any_in [" turn "; " power "; " set "; " change "] text.

Definition increase_verb (text : string) : bool :=
  negb (direct_verb text) && any_in [" increase "; " raise "] text.

Definition decrease_verb (text : string) : bool :=
  negb (direct_verb text) && negb (any_in [" increase "; " raise "] text)
  && any_in [" decrease "; " reduce "] text.

Definition all_lights (text : string) : bool :=
  PyStr.contains " all " text && PyStr.contains " lights " text.

(** A direct-state command for one light: lines 197 and 209. *)
Definition single_light_direct (text : string) : bool :=
  direct_verb text && negb (all_lights text) && PyStr.contains " light " text.

(** The light-scope test of the increase and decrease groups, as the code
    makes it: lines 256 and 275. *)
Definition brightness_scope (text : string) : bool :=
  PyStr.contains " brightness " text && PyStr.contains "light" text.

(** The device a text resolves to: the colour item and the colour
    temperature item at the position of the first configured name the text
    contains. *)
Definition resolves (cfg : Config) (text : string) (color temp : string) : Prop :=
  exists idx,
    idx_in (lights_ids cfg) text = Some idx
    /\ nth_error (light_colors cfg) idx = Some color
    /\ nth_error (light_color_temps cfg) idx = Some temp.

(** The colour item alone, which is all the brightness commands look up. *)
Definition resolves_color (cfg : Config) (text : string) (color : string) : Prop :=
  exists idx,
    idx_in (lights_ids cfg) text = Some idx
    /\ nth_error (light_colors cfg) idx = Some color.

Definition switch_word (text : string) : bool :=
  PyStr.contains " on " text || PyStr.contains " off " text.

(** The hue of the first colour word, in the order the handler tests them. *)
Definition color_word (text : string) : option string :=
  if PyStr.contains " red " text then Some "0"
  else if PyStr.contains " yellow " text then Some "100"
  else if PyStr.contains " blue " text then Some "260"
  else if PyStr.contains " pink " text then Some "340"
  else if PyStr.contains " green " text then Some "140"
  else None.

(** The level of the first temperature word. *)
Definition temperature_word (text : string) : option string :=
  if PyStr.contains " cool " text then Some "0"
  else if PyStr.contains " warm " text then Some "100"
  else if PyStr.contains " natural " text then Some "50"
  else None.

(** The verb of a brightness command: [up] for increase or raise, otherwise
    decrease or reduce. *)
Definition adjust_verb (up : bool) (text : string) : bool :=
  if up then increase_verb text else decrease_verb text.

(** The brightness written back, lines 262-264 and 281-283. *)
Definition new_brightness (up : bool) (brightness : Z) : Z :=
  if up then
    if brightness + 25 >? 100 then 100 else brightness + 25
  else
    if brightness - 25 <? 0 then 0 else brightness - 25.

(** The three-field wire value of a state, line 266. *)
Definition recombine (hue saturation : string) (brightness : Z) : string :=
  hue ++ "," ++ saturation ++ "," ++ PyStr.str brightness.

(** What the handler says when it gives up. *)
Definition not_recognized_message : string := "Sorry, I cannot do that yet".
Definition device_not_found_message : string := "Sorry, I don't know that device".

(** The text [dispatch] receives for what was said. *)
Definition command_text (said : string) : string := PyStr.lower said ++ " ".

(** The URL the state of an item is read from. *)
Definition state_url (cfg : Config) (item : string) : string :=
  item_url cfg item ++ "/state".

(** The spoken report for a status code, as the specification lists them. *)
Definition status_message (code : Z) : string :=
  if code =? 200 then "OK"
  else if code =? 400 then "There has been an error: bad command"
  else if code =? 404 then "There has been an error: unknown item"
  else "Command failed".

(* ------------------------------------------------------------------ *)
(** ** The shape of a run *)

Section Shapes.

Context {W : Type}.
Variable requests : Requests W.
Variable cfg : Config.

(** What [openhab_send] does after the request itself. *)
Definition send_report (item state : string) (r : Response) : list effect :=
  ((if truthy (debug cfg)
    then [Print ("REQUEST [POST]: " ++ item_url cfg item ++ " STATE: " ++ state)]
    else [])
   ++ (if truthy (debug cfg) && ((status_code r =? 400) || (status_code r =? 404))
       then [Print ("ERROR [HTTP " ++ PyStr.str (status_code r) ++ "]: " ++ text r)]
       else [])
   ++ [Say (status_message (status_code r))])%list.

(** A recognized text that passes the hotword test: the echo, the end of
    the conversation with the assistant, then the dispatch. *)
Definition heard (self : MyAssistant) (said : string)
    (run : outcome unit * W * list effect) : outcome MyAssistant * W * list effect :=
  match run with
  | (Returned _, w, t) =>
      (Returned self, w, Print ("You said: " ++ said) :: StopConversation :: t)
  | (Raised e, w, t) =>
      (Raised e, w, Print ("You said: " ++ said) :: StopConversation :: t)
  end.

(** The fetch that opens every command on a resolved light. *)
Definition fetched (color : string) (w : W) : string :=
  fst (requests_get requests (state_url cfg color) w).

Definition after_fetch (color : string) (w : W) : W :=
  snd (requests_get requests (state_url cfg color) w).

(** The run of a push that follows the fetch. *)
Definition fetch_then_send (color item state : string) (w : W) :
  outcome unit * W * list effect :=
  (Returned tt,
   snd (requests_post requests (item_url cfg item) state (after_fetch color w)),
   Get (state_url cfg color)
   :: Post (item_url cfg item) state
   :: send_report item state
        (fst (requests_post requests (item_url cfg item) state (after_fetch color w)))).

End Shapes.

(* ------------------------------------------------------------------ *)
(** ** The session: events and button presses *)

(** What reaches the object: an event of the library's stream, delivered by
    the loop of [_run_task], or a press of the button. *)
Inductive stimulus : Type :=
| Delivered (event : Event)
| Pressed.

(** The stimuli that can end a period in which no conversation may start. *)
Definition releases (s : stimulus) : bool :=
  match s with
  | Delivered ON_START_FINISHED | Delivered ON_CONVERSATION_TURN_FINISHED => true
  | _ => false
  end.

Section Session.

Context {W : Type}.
Variable requests : Requests W.
Variable cfg : Config.

Definition react (self : MyAssistant) (s : stimulus) : M W MyAssistant :=
  match s with
  | Delivered event => process_event requests cfg self event
  | Pressed => on_button_pressed self
  end.

(** The stimuli in the order they are handled; an exception ends the run. *)
Fixpoint session (self : MyAssistant) (stimuli : list stimulus) : M W MyAssistant :=
  match stimuli with
  | [] => ret self
  | s :: rest => self' <- react self s ;; session self' rest
  end.

(** Every effect of every run of [m] satisfies [P]. *)
Definition emits {A} (P : effect -> Prop) (m : M W A) : Prop :=
  forall w, Forall P (trace_of (m w)).

End Session.

(** An effect other than the start of a conversation. *)
Definition quiet (e : effect) : Prop := e <> StartConversation.

(* ------------------------------------------------------------------ *)
(** ** The specification's words, for comparison *)

(** Clamping to the closed interval from 0 to 100. *)
Definition clamp (n : Z) : Z := Z.max 0 (Z.min 100 n).

(** Decoding a three-field wire value and encoding it again with the
    brightness read as an integer, moved by [delta] and printed. *)
Definition reencode (delta : Z) (wire : string) : option string :=
  match PyStr.split "," wire with
  | [hue; saturation; field] =>
      match PyStr.int field with
      | Some b => Some (recombine hue saturation (b + delta))
      | None => None
      end
  | _ => None
  end.

(** A run of digits in which a single underscore may stand between two
    digits, with the number of its digits. *)
Inductive digit_groups : string -> nat -> Prop :=
| groups_last c :
    PyStr.is_digit c = true ->
    digit_groups (String c EmptyString) 1
| groups_digit c s n :
    PyStr.is_digit c = true ->
    digit_groups s n ->
    digit_groups (String c s) (S n)
| groups_underscore c s n :
    PyStr.is_digit c = true ->
    digit_groups s n ->
    digit_groups (String c (String "_" s)) (S n).

(** The numerals [int()] accepts, as a grammar: white space, an optional
    sign, digits in groups, white space; at most [max_str_digits] digits. *)
Definition int_literal (s : string) : Prop :=
  exists before sign body after n,
    s = before ++ sign ++ body ++ after
    /\ PyStr.all_chars PyStr.is_space before = true
    /\ PyStr.all_chars PyStr.is_space after = true
    /\ (sign = EmptyString \/ sign = "+" \/ sign = "-")
    /\ digit_groups body n
    /\ (N.of_nat n <= PyStr.max_str_digits)%N.

(** A decimal integer in the plain sense: an optional sign, then one or
    more digits and nothing else. *)
Definition plain_decimal (s : string) : bool :=
  match s with
  | String "+" r | String "-" r =>
      negb (String.eqb r EmptyString) && PyStr.all_chars PyStr.is_digit r
  | _ => negb (String.eqb s EmptyString) && PyStr.all_chars PyStr.is_digit s
  end.

(** The pipeline ran: the handler stopped the assistant's own conversation,
    which is the first thing it does behind the hotword test. *)
Definition dispatched {A W} (run : outcome A * W * list effect) : Prop :=
  In StopConversation (trace_of run).

(* ------------------------------------------------------------------ *)
(** ** Further vocabulary *)

Definition is_get (e : effect) : bool :=
  match e with Get _ => true | _ => false end.

Definition is_call (e : effect) : bool :=
  match e with Call _ => true | _ => false end.

Definition is_start (e : effect) : bool :=
  match e with StartConversation => true | _ => false end.

(** Everything but what is printed on standard output. *)
Definition audible (e : effect) : bool :=
  match e with Print _ => false | _ => true end.

(** Two computations that differ at most in what they print. *)
Definition alike {A W} (m m' : M W A) : Prop :=
  forall w,
    result_of (m w) = result_of (m' w)
    /\ world_of (m w) = world_of (m' w)
    /\ filter audible (trace_of (m w)) = filter audible (trace_of (m' w)).

(** The three light arrays of the configuration run in parallel. *)
Definition well_formed (cfg : Config) : Prop :=
  List.length (light_colors cfg) = List.length (lights_ids cfg)
  /\ List.length (light_color_temps cfg) = List.length (lights_ids cfg).

(** The configuration with another value of [debug]. *)
Definition set_debug (d : Z) (cfg : Config) : Config := {|
  openhab_ip := openhab_ip cfg;
  openhab_port := openhab_port cfg;
  all_lights_group := all_lights_group cfg;
  light_colors := light_colors cfg;
  light_color_temps := light_color_temps cfg;
  lights_ids := lights_ids cfg;
  custom_hotword := custom_hotword cfg;
  debug := d
|}.

(** The flag [_can_start_conversation] after a stimulus, read off the
    assignments of [_process_event]. *)
Definition flag_step (flag : bool) (s : stimulus) : bool :=
  match s with
  | Delivered ON_START_FINISHED => true
  | Delivered ON_CONVERSATION_TURN_STARTED => false
  | Delivered ON_CONVERSATION_TURN_FINISHED => true
  | _ => flag
  end.

(** The presses that find the flag up. *)
Fixpoint presses_while_ready (flag : bool) (stimuli : list stimulus) : nat :=
  match stimuli with
  | [] => 0
  | s :: rest =>
      (match s with Pressed => if flag then 1 else 0 | _ => 0 end
       + presses_while_ready (flag_step flag s) rest)%nat
  end.

Section Shape.

Context {W : Type}.
Variable requests : Requests W.
Variable cfg : Config.

(** The runs the dispatch of a text can take from a state of the backend,
    one constructor per way out of lines 195-297. *)
Inductive shape (text : string) (w : W) : outcome unit * W * list effect -> Prop :=
| shape_report message :
    message = not_recognized_message \/ message = device_not_found_message ->
    shape text w (Returned tt, w, [Say message])
| shape_silent :
    shape text w (Returned tt, w, [])
| shape_power_off :
    direct_verb text = true ->
    PyStr.contains " system " text = true ->
    PyStr.contains " off " text = true ->
    shape text w
      (Returned tt, w,
       [Say "Powering off the system. Good bye!"; Call "sudo shutdown now"])
| shape_reboot :
    direct_verb text = false ->
    any_in [" increase "; " raise "] text = false ->
    any_in [" decrease "; " reduce "] text = false ->
    any_in [" reboot "; " restart "] text = true ->
    PyStr.contains " system " text = true ->
    shape text w
      (Returned tt, w, [Say "Rebooting the system. Hold on!"; Call "sudo reboot"])
| shape_group state :
    shape text w (openhab_send requests cfg (all_lights_group cfg) state w)
| shape_lookup idx :
    idx_in (lights_ids cfg) text = Some idx ->
    nth_error (light_colors cfg) idx = None
    \/ nth_error (light_color_temps cfg) idx = None ->
    shape text w (Raised IndexError, w, [])
| shape_push color item state :
    resolves_color cfg text color ->
    shape text w (fetch_then_send requests cfg color item state w)
| shape_bad_state color e :
    resolves_color cfg text color ->
    e = IndexError \/ e = ValueError ->
    shape text w (Raised e, after_fetch requests cfg color w, [Get (state_url cfg color)])
| shape_unknown_action color :
    resolves_color cfg text color ->
    shape text w
      (Returned tt, after_fetch requests cfg color w,
       [Get (state_url cfg color); Say not_recognized_message]).

End Shape.

(* ------------------------------------------------------------------ *)
(** ** Checks on concrete inputs *)

Example lower_ex : PyStr.lower "Home Turn ON" = "home turn on".
Proof. reflexivity. Qed.

Example split_ex : PyStr.split "," "120,50,75" = ["120"; "50"; "75"].
Proof. reflexivity. Qed.

Example split_null : PyStr.split "," "NULL" = ["NULL"].
Proof. reflexivity. Qed.

Example split_empty_fields : PyStr.split "," ",a," = [EmptyString; "a"; EmptyString].
Proof. reflexivity. Qed.

Example int_ex :
  map PyStr.int ["90"; " -15 "; "+007"; "1_000"; EmptyString; "1__0"; "_1"; "1_"; "5.0"; "- 5"; "-"]
  = [Some 90; Some (-15); Some 7; Some 1000; None; None; None; None; None; None; None].
Proof. reflexivity. Qed.

Example int_separators :
  map PyStr.int [String "028"%char "75"; String "7" (String "5" (String "031"%char EmptyString));
                 String "009"%char "75"; String "160"%char "75"]
  = [None; None; Some 75; Some 75].
Proof. reflexivity. Qed.

Example str_ex : map PyStr.str [0; 100; -15] = ["0"; "100"; "-15"].
Proof. reflexivity. Qed.

Example contains_ex :
  (PyStr.contains " on " "home turn on the light ", PyStr.contains " on " "home turn one ",
   PyStr.contains EmptyString EmptyString)
  = (true, false, true).
Proof. reflexivity. Qed.

(* ------------------------------------------------------------------ *)
(** ** Runs of the helpers *)

Section Runs.

Context {W : Type}.
Variable requests : Requests W.
Variable cfg : Config.

#[local] Arguments String.append : simpl never.
#[local] Arguments item_url : simpl never.
#[local] Arguments PyStr.contains : simpl never.
#[local] Arguments PyStr.str : simpl never.

Lemma openhab_send_run item state w :
  openhab_send requests cfg item state w =
  (Returned tt, snd (requests_post requests (item_url cfg item) state w),
   Post (item_url cfg item) state
   :: send_report cfg item state (fst (requests_post requests (item_url cfg item) state w))).
Proof.
  unfold openhab_send, send_report, status_message, bind, post, debug_print, say, print, emit, ret.
  destruct (requests_post requests (item_url cfg item) state w) as [r w'] eqn:E.
  cbn [fst snd].
  destruct (truthy (debug cfg));
    destruct (status_code r =? 200) eqn:E200;
    [ apply Z.eqb_eq in E200; rewrite E200; reflexivity | | 
      apply Z.eqb_eq in E200; rewrite E200; reflexivity | ];
    destruct (status_code r =? 400) eqn:E400;
    try (apply Z.eqb_eq in E400; rewrite E400; reflexivity);
    destruct (status_code r =? 404) eqn:E404;
    try (apply Z.eqb_eq in E404; rewrite E404; reflexivity);
    reflexivity.
Qed.

Lemma network_calls_send_report item state r :
  network_calls (send_report cfg item state r) = [].
Proof.
  unfold send_report.
  destruct (truthy (debug cfg)); cbn;
    destruct ((status_code r =? 400) || (status_code r =? 404)); reflexivity.
Qed.

Lemma says_send_report item state r :
  filter is_say (send_report cfg item state r) = [Say (status_message (status_code r))].
Proof.
  unfold send_report.
  destruct (truthy (debug cfg)); cbn;
    destruct ((status_code r =? 400) || (status_code r =? 404)); reflexivity.
Qed.

End Runs.

(* ------------------------------------------------------------------ *)
(** ** Runs of the handler, branch by branch *)

Section Dispatch.

Context {W : Type}.
Variable requests : Requests W.
Variable cfg : Config.

#[local] Arguments String.append : simpl never.
#[local] Arguments item_url : simpl never.
#[local] Arguments PyStr.contains : simpl never.
#[local] Arguments PyStr.str : simpl never.
#[local] Arguments PyStr.lower : simpl never.

Lemma process_event_hot self said w :
  PyStr.startswith (PyStr.lower said) (custom_hotword cfg) = true ->
  process_event requests cfg self (ON_RECOGNIZING_SPEECH_FINISHED (Some said)) w
  = heard self said (dispatch requests cfg (command_text said) w).
Proof.
  intros Hhot.
  unfold process_event, recognized, heard, command_text, bind, print, emit, ret.
  rewrite Hhot.
  destruct (dispatch requests cfg (PyStr.lower said ++ " ") w) as [[[[]|e] w'] t];
    cbn [app]; rewrite ?app_nil_r; reflexivity.
Qed.

Lemma process_event_cold self said w :
  PyStr.startswith (PyStr.lower said) (custom_hotword cfg) = false ->
  process_event requests cfg self (ON_RECOGNIZING_SPEECH_FINISHED (Some said)) w
  = (Returned self, w, [Print ("You said: " ++ said)]).
Proof.
  intros Hcold.
  unfold process_event, recognized, bind, print, emit, ret.
  rewrite Hcold. reflexivity.
Qed.

Lemma dispatch_specific_light text w :
  single_light_direct text = true ->
  dispatch requests cfg text w = specific_light requests cfg text w.
Proof.
  unfold single_light_direct, direct_verb, all_lights, dispatch, direct_state_group.
  intros H. apply andb_prop in H as [H Hlight]. apply andb_prop in H as [Hverb Hall].
  apply negb_true_iff in Hall.
  rewrite Hverb, Hall, Hlight. reflexivity.
Qed.

Lemma temperature_run text w color temp level :
  resolves cfg text color temp ->
  switch_word text = false ->
  color_word text = None ->
  temperature_word text = Some level ->
  specific_light requests cfg text w = fetch_then_send requests cfg color temp level w.
Proof.
  intros (idx & Hidx & Hc & Ht) Hsw Hcw Htw.
  unfold switch_word in Hsw. apply orb_false_iff in Hsw as [Hon Hoff].
  unfold color_word in Hcw. unfold temperature_word in Htw.
  unfold specific_light, bind, getitem, openhab_get_state, get, ret,
    fetch_then_send, after_fetch, state_url.
  rewrite Hidx, Hc, Ht.
  destruct (requests_get requests (item_url cfg color ++ "/state") w) as [body w1].
  cbn [snd fst].
  rewrite Hon, Hoff.
  destruct (PyStr.contains " red " text); [discriminate|].
  destruct (PyStr.contains " yellow " text); [discriminate|].
  destruct (PyStr.contains " blue " text); [discriminate|].
  destruct (PyStr.contains " pink " text); [discriminate|].
  destruct (PyStr.contains " green " text); [discriminate|].
  destruct (PyStr.contains " cool " text);
    [|destruct (PyStr.contains " warm " text);
      [|destruct (PyStr.contains " natural " text); [|discriminate]]];
    injection Htw as <-; rewrite openhab_send_run; reflexivity.
Qed.

Lemma switch_run text w color temp :
  resolves cfg text color temp ->
  switch_word text = true ->
  specific_light requests cfg text w
  = fetch_then_send requests cfg color color (if PyStr.contains " on " text then "ON" else "OFF") w.
Proof.
  intros (idx & Hidx & Hc & Ht) Hsw.
  unfold switch_word in Hsw.
  unfold specific_light, bind, getitem, openhab_get_state, get, ret,
    fetch_then_send, after_fetch, state_url.
  rewrite Hidx, Hc, Ht.
  destruct (requests_get requests (item_url cfg color ++ "/state") w) as [body w1].
  cbn [snd fst].
  destruct (PyStr.contains " on " text); [rewrite openhab_send_run; reflexivity|].
  cbn in Hsw. rewrite Hsw. rewrite openhab_send_run; reflexivity.
Qed.

Lemma unrecognized_run text w color temp :
  resolves cfg text color temp ->
  switch_word text = false ->
  color_word text = None ->
  temperature_word text = None ->
  specific_light requests cfg text w
  = (Returned tt, after_fetch requests cfg color w,
     [Get (state_url cfg color); Say not_recognized_message]).
Proof.
  intros (idx & Hidx & Hc & Ht) Hsw Hcw Htw.
  unfold switch_word in Hsw. apply orb_false_iff in Hsw as [Hon Hoff].
  unfold color_word in Hcw. unfold temperature_word in Htw.
  unfold specific_light, bind, getitem, openhab_get_state, get, ret,
    after_fetch, state_url.
  rewrite Hidx, Hc, Ht.
  destruct (requests_get requests (item_url cfg color ++ "/state") w) as [body w1].
  cbn [snd fst].
  rewrite Hon, Hoff.
  destruct (PyStr.contains " red " text); [discriminate|].
  destruct (PyStr.contains " yellow " text); [discriminate|].
  destruct (PyStr.contains " blue " text); [discriminate|].
  destruct (PyStr.contains " pink " text); [discriminate|].
  destruct (PyStr.contains " green " text); [discriminate|].
  destruct (PyStr.contains " cool " text); [discriminate|].
  destruct (PyStr.contains " warm " text); [discriminate|].
  destruct (PyStr.contains " natural " text); [discriminate|].
  reflexivity.
Qed.


Lemma color_run text w color temp hue :
  resolves cfg text color temp ->
  switch_word text = false ->
  color_word text = Some hue ->
  specific_light requests cfg text w
  = match nth_error (PyStr.split "," (fetched requests cfg color w)) 2 with
    | Some brightness => fetch_then_send requests cfg color color (hue ++ ",100," ++ brightness) w
    | None => (Raised IndexError, after_fetch requests cfg color w, [Get (state_url cfg color)])
    end.
Proof.
  intros (idx & Hidx & Hc & Ht) Hsw Hcw.
  unfold switch_word in Hsw. apply orb_false_iff in Hsw as [Hon Hoff].
  unfold color_word in Hcw.
  unfold specific_light, set_color, bind, getitem, openhab_get_state, get, ret, raise,
    fetch_then_send, fetched, after_fetch, state_url.
  rewrite Hidx, Hc, Ht.
  destruct (requests_get requests (item_url cfg color ++ "/state") w) as [body w1].
  cbn [snd fst].
  rewrite Hon, Hoff.
  destruct (PyStr.contains " red " text);
    [|destruct (PyStr.contains " yellow " text);
      [|destruct (PyStr.contains " blue " text);
        [|destruct (PyStr.contains " pink " text);
          [|destruct (PyStr.contains " green " text); [|discriminate]]]]];
    injection Hcw as <-;
    (destruct (nth_error (PyStr.split "," body) 2) as [b|];
     [rewrite openhab_send_run; reflexivity | reflexivity]).
Qed.

Lemma adjust_dispatch up text w :
  adjust_verb up text = true ->
  dispatch requests cfg text w
  = if up then increase_group requests cfg text w
    else decrease_group requests cfg text w.
Proof.
  unfold adjust_verb, increase_verb, decrease_verb, direct_verb, dispatch.
  destruct up; intros H.
  - apply andb_prop in H as [Hd Hi]. apply negb_true_iff in Hd.
    rewrite Hd, Hi. reflexivity.
  - apply andb_prop in H as [H Hdec]. apply andb_prop in H as [Hd Hi].
    apply negb_true_iff in Hd. apply negb_true_iff in Hi.
    rewrite Hd, Hi, Hdec. reflexivity.
Qed.

Lemma adjust_run up text w color :
  adjust_verb up text = true ->
  brightness_scope text = true ->
  resolves_color cfg text color ->
  dispatch requests cfg text w
  = match PyStr.split "," (fetched requests cfg color w) with
    | hue :: saturation :: field :: _ =>
        match PyStr.int field with
        | Some b =>
            fetch_then_send requests cfg color color (recombine hue saturation (new_brightness up b)) w
        | None => (Raised ValueError, after_fetch requests cfg color w, [Get (state_url cfg color)])
        end
    | _ => (Raised IndexError, after_fetch requests cfg color w, [Get (state_url cfg color)])
    end.
Proof.
  intros Hverb Hscope (idx & Hidx & Hc).
  rewrite (adjust_dispatch _ _ _ Hverb).
  unfold brightness_scope in Hscope.
  unfold increase_group, decrease_group, bind, getitem, int_of, openhab_get_state, get,
    ret, raise, fetch_then_send, fetched, after_fetch, state_url, recombine, new_brightness.
  rewrite Hscope, Hidx, Hc.
  destruct (requests_get requests (item_url cfg color ++ "/state") w) as [body w1].
  cbn [snd fst].
  destruct (PyStr.split "," body) as [|f0 [|f1 [|f2 rest]]];
    destruct up; cbn [nth_error]; try reflexivity;
    (destruct (PyStr.int f2) as [b|]; [rewrite openhab_send_run; reflexivity | reflexivity]).
Qed.

Lemma specific_light_unknown text w :
  idx_in (lights_ids cfg) text = None ->
  specific_light requests cfg text w
  = (Returned tt, w, [Say device_not_found_message]).
Proof.
  intros Hidx. unfold specific_light. rewrite Hidx. reflexivity.
Qed.

Lemma adjust_unknown up text w :
  adjust_verb up text = true ->
  brightness_scope text = true ->
  idx_in (lights_ids cfg) text = None ->
  dispatch requests cfg text w
  = (Returned tt, w, [Say device_not_found_message]).
Proof.
  intros Hverb Hscope Hidx.
  rewrite (adjust_dispatch _ _ _ Hverb).
  unfold brightness_scope in Hscope.
  unfold increase_group, decrease_group.
  rewrite Hscope, Hidx. destruct up; reflexivity.
Qed.

Lemma send_report_says item state r message :
  In (Say message) (send_report cfg item state r) ->
  message = status_message (status_code r).
Proof.
  intros H.
  assert (Hf : In (Say message) (filter is_say (send_report cfg item state r)))
    by (apply filter_In; split; [exact H | reflexivity]).
  rewrite says_send_report in Hf.
  destruct Hf as [Hf|[]]. now injection Hf.
Qed.

Lemma status_message_not_recognized code :
  status_message code <> not_recognized_message.
Proof.
  unfold status_message.
  destruct (code =? 200); [discriminate|].
  destruct (code =? 400); [discriminate|].
  destruct (code =? 404); discriminate.
Qed.

Lemma fetch_then_send_recognized color item state w :
  ~ In (Say not_recognized_message) (trace_of (fetch_then_send requests cfg color item state w)).
Proof.
  unfold fetch_then_send, trace_of. cbn [snd].
  intros [H|[H|H]]; try discriminate.
  apply send_report_says in H. symmetry in H.
  now apply status_message_not_recognized in H.
Qed.

Lemma openhab_send_recognized item state w :
  ~ In (Say not_recognized_message)
      (trace_of (openhab_send requests cfg item state w)).
Proof.
  rewrite openhab_send_run. unfold trace_of. cbn [snd].
  intros [H|H]; try discriminate.
  apply send_report_says in H. symmetry in H.
  now apply status_message_not_recognized in H.
Qed.

(** Where "Sorry, I cannot do that yet" can come from: a branch that touches
    nothing, or the last branch of a resolved light, after its fetch. *)
Lemma not_recognized_trace text w :
  In (Say not_recognized_message) (trace_of (dispatch requests cfg text w)) ->
  dispatch requests cfg text w = (Returned tt, w, [Say not_recognized_message])
  \/ exists color temp,
       resolves cfg text color temp
       /\ single_light_direct text = true
       /\ switch_word text = false
       /\ color_word text = None
       /\ temperature_word text = None
       /\ dispatch requests cfg text w
          = (Returned tt, after_fetch requests cfg color w,
             [Get (state_url cfg color); Say not_recognized_message]).
Proof.
  destruct (direct_verb text) eqn:Hd.
  - destruct (all_lights text) eqn:Hall.
    + unfold dispatch, direct_state_group.
      unfold direct_verb in Hd. unfold all_lights in Hall. rewrite Hd, Hall.
      destruct (PyStr.contains " on " text);
        [intros H; now apply openhab_send_recognized in H|].
      destruct (PyStr.contains " off " text);
        [intros H; now apply openhab_send_recognized in H|].
      now left.
    + destruct (PyStr.contains " light " text) eqn:Hl.
      * assert (Hs : single_light_direct text = true)
          by (unfold single_light_direct; now rewrite Hd, Hall, Hl).
        rewrite (dispatch_specific_light _ _ Hs).
        destruct (idx_in (lights_ids cfg) text) as [idx|] eqn:Hidx.
        2:{ rewrite (specific_light_unknown _ _ Hidx).
            intros [H|[]]. discriminate. }
        destruct (nth_error (light_colors cfg) idx) as [color|] eqn:Hc.
        2:{ unfold specific_light, bind, getitem, raise. rewrite Hidx, Hc.
            intros []. }
        destruct (nth_error (light_color_temps cfg) idx) as [temp|] eqn:Ht.
        2:{ unfold specific_light, bind, getitem, raise, ret. rewrite Hidx, Hc, Ht.
            intros []. }
        assert (Hr : resolves cfg text color temp) by (exists idx; auto).
        destruct (switch_word text) eqn:Hsw.
        { rewrite (switch_run _ _ _ _ Hr Hsw).
          intros H. now apply fetch_then_send_recognized in H. }
        destruct (color_word text) as [hue|] eqn:Hcw.
        { rewrite (color_run _ _ _ _ _ Hr Hsw Hcw).
          destruct (nth_error (PyStr.split "," (fetched requests cfg color w)) 2).
          - intros H. now apply fetch_then_send_recognized in H.
          - intros [H|[]]. discriminate. }
        destruct (temperature_word text) as [level|] eqn:Htw.
        { rewrite (temperature_run _ _ _ _ _ Hr Hsw Hcw Htw).
          intros H. now apply fetch_then_send_recognized in H. }
        intros _. right. exists color, temp.
        repeat split; auto.
        now apply (unrecognized_run _ _ _ temp).
      * unfold dispatch, direct_state_group.
        unfold direct_verb in Hd. unfold all_lights in Hall. rewrite Hd, Hall, Hl.
        destruct (PyStr.contains " system " text); [|now left].
        destruct (PyStr.contains " off " text).
        -- intros [H|[H|[]]]; discriminate.
        -- intros [].
  - destruct (any_in [" increase "; " raise "] text) eqn:Hi.
    + assert (Hv : adjust_verb true text = true)
        by (cbn; unfold increase_verb; now rewrite Hd, Hi).
      destruct (brightness_scope text) eqn:Hb.
      * destruct (idx_in (lights_ids cfg) text) as [idx|] eqn:Hidx.
        2:{ rewrite (adjust_unknown _ _ _ Hv Hb Hidx). intros [H|[]]. discriminate. }
        destruct (nth_error (light_colors cfg) idx) as [color|] eqn:Hc.
        2:{ rewrite (adjust_dispatch _ _ _ Hv).
            unfold increase_group, bind, getitem, raise.
            unfold brightness_scope in Hb. rewrite Hb, Hidx, Hc. intros []. }
        assert (Hr : resolves_color cfg text color) by (exists idx; auto).
        rewrite (adjust_run _ _ _ _ Hv Hb Hr).
        destruct (PyStr.split "," (fetched requests cfg color w)) as [|f0 [|f1 [|f2 rest]]];
          try (intros [H|[]]; discriminate).
        destruct (PyStr.int f2).
        -- intros H. now apply fetch_then_send_recognized in H.
        -- intros [H|[]]. discriminate.
      * rewrite (adjust_dispatch _ _ _ Hv). unfold increase_group.
        unfold brightness_scope in Hb. rewrite Hb. now left.
    + destruct (any_in [" decrease "; " reduce "] text) eqn:Hdec.
      * assert (Hv : adjust_verb false text = true)
          by (cbn; unfold decrease_verb; now rewrite Hd, Hi, Hdec).
        destruct (brightness_scope text) eqn:Hb.
        -- destruct (idx_in (lights_ids cfg) text) as [idx|] eqn:Hidx.
           2:{ rewrite (adjust_unknown _ _ _ Hv Hb Hidx). intros [H|[]]. discriminate. }
           destruct (nth_error (light_colors cfg) idx) as [color|] eqn:Hc.
           2:{ rewrite (adjust_dispatch _ _ _ Hv).
               unfold decrease_group, bind, getitem, raise.
               unfold brightness_scope in Hb. rewrite Hb, Hidx, Hc. intros []. }
           assert (Hr : resolves_color cfg text color) by (exists idx; auto).
           rewrite (adjust_run _ _ _ _ Hv Hb Hr).
           destruct (PyStr.split "," (fetched requests cfg color w)) as [|f0 [|f1 [|f2 rest]]];
             try (intros [H|[]]; discriminate).
           destruct (PyStr.int f2).
           ++ intros H. now apply fetch_then_send_recognized in H.
           ++ intros [H|[]]. discriminate.
        -- rewrite (adjust_dispatch _ _ _ Hv). unfold decrease_group.
           unfold brightness_scope in Hb. rewrite Hb. now left.
      * unfold dispatch. unfold direct_verb in Hd. rewrite Hd, Hi, Hdec.
        destruct (any_in [" reboot "; " restart "] text); [|now left].
        unfold reboot_group.
        destruct (PyStr.contains " system " text).
        -- intros [H|[H|[]]]; discriminate.
        -- intros [].
Qed.

End Dispatch.

(* ------------------------------------------------------------------ *)
(** ** Facts about the string operations *)

Module PyStrFacts.
Import PyStr.

Lemma split_not_nil sep s : split sep s <> [].
Proof.
  destruct s as [|a s]; cbn; [discriminate|].
  destruct (Ascii.eqb a sep); [discriminate|].
  destruct (split sep s); discriminate.
Qed.

Lemma length_split sep s : List.length (split sep s) = S (count sep s).
Proof.
  induction s as [|a s IH]; cbn; [reflexivity|].
  destruct (Ascii.eqb a sep); cbn.
  - now rewrite IH.
  - destruct (split sep s) eqn:E; [now apply split_not_nil in E|].
    cbn in *. exact IH.
Qed.

Lemma join_split sep s : join (String sep EmptyString) (split sep s) = s.
Proof.
  induction s as [|a s IH]; cbn; [reflexivity|].
  destruct (Ascii.eqb_spec a sep) as [->|Hne].
  - destruct (split sep s) eqn:E; [now apply split_not_nil in E|].
    cbn in *. now rewrite IH.
  - destruct (split sep s) as [|f fs] eqn:E; [now apply split_not_nil in E|].
    destruct fs; cbn in *; now rewrite IH.
Qed.

Lemma split_plain sep s : count sep s = 0%nat -> split sep s = [s].
Proof.
  induction s as [|a s IH]; cbn; [reflexivity|].
  destruct (Ascii.eqb a sep); [discriminate|].
  cbn. intros H. now rewrite (IH H).
Qed.

Lemma split_app sep h r :
  count sep h = 0%nat ->
  split sep (h ++ String sep r) = h :: split sep r.
Proof.
  induction h as [|a h IH]; cbn.
  - now rewrite Ascii.eqb_refl.
  - destruct (Ascii.eqb a sep); [discriminate|].
    cbn. intros H. now rewrite (IH H).
Qed.

Lemma three_fields sep s h sat v :
  split sep s = [h; sat; v] ->
  s = h ++ String sep (sat ++ String sep v).
Proof.
  intros H. rewrite <- (join_split sep s), H. reflexivity.
Qed.

Lemma prefix_first_token s : String.prefix (first_token s) s = true.
Proof.
  induction s as [|a s IH]; cbn; [reflexivity|].
  destruct (Ascii.eqb a " "); cbn; [reflexivity|].
  destruct (ascii_dec a a); [exact IH | congruence].
Qed.

(** *** Printing and reading an integer *)

Lemma digit_not_space c : is_digit c = true -> is_space c = false.
Proof.
  destruct c as [[] [] [] [] [] [] [] []]; cbn; congruence.
Qed.

Lemma digit_not_comma c : is_digit c = true -> Ascii.eqb c "," = false.
Proof.
  destruct c as [[] [] [] [] [] [] [] []]; cbn; congruence.
Qed.

Lemma digits_string_of_uint d :
  all_chars is_digit (NilEmpty.string_of_uint d) = true.
Proof.
  induction d; cbn; auto.
Qed.

Lemma rstrip_plain s :
  all_chars (fun c => negb (is_space c)) s = true -> rstrip s = s.
Proof.
  induction s as [|a s IH]; cbn; [reflexivity|].
  intros H. apply andb_prop in H as [Ha Hs].
  rewrite (IH Hs). apply negb_true_iff in Ha.
  destruct s; [now rewrite Ha | reflexivity].
Qed.

Lemma lstrip_plain s :
  all_chars (fun c => negb (is_space c)) s = true -> lstrip s = s.
Proof.
  destruct s as [|a s]; cbn; [reflexivity|].
  intros H. apply andb_prop in H as [Ha _]. apply negb_true_iff in Ha.
  now rewrite Ha.
Qed.

Lemma all_chars_weaken (p q : ascii -> bool) s :
  (forall c, p c = true -> q c = true) ->
  all_chars p s = true -> all_chars q s = true.
Proof.
  intros Hpq. induction s as [|a s IH]; cbn; [reflexivity|].
  intros H. apply andb_prop in H as [Ha Hs].
  now rewrite (Hpq _ Ha), (IH Hs).
Qed.

Lemma digits_no_space s :
  all_chars is_digit s = true ->
  all_chars (fun c => negb (is_space c)) s = true.
Proof.
  apply all_chars_weaken. intros c Hc. now rewrite (digit_not_space _ Hc).
Qed.

Lemma strip_digits s : all_chars is_digit s = true -> strip s = s.
Proof.
  intros H. unfold strip.
  now rewrite (lstrip_plain _ (digits_no_space _ H)), (rstrip_plain _ (digits_no_space _ H)).
Qed.

Lemma literal_digits_digits s :
  all_chars is_digit s = true -> literal_digits true s = Some s.
Proof.
  induction s as [|a s IH]; cbn; [reflexivity|].
  intros H. apply andb_prop in H as [Ha Hs].
  now rewrite Ha, (IH Hs).
Qed.

Lemma length_string_of_uint d :
  String.length (NilEmpty.string_of_uint d) = Decimal.nb_digits d.
Proof. induction d; cbn; auto. Qed.

Lemma magnitude_digits d :
  d <> Decimal.Nil ->
  (N.of_nat (Decimal.nb_digits d) <= max_str_digits)%N ->
  magnitude (NilEmpty.string_of_uint d) = Some (Z.of_uint d).
Proof.
  intros Hd Hlen. unfold magnitude.
  assert (H : literal_digits false (NilEmpty.string_of_uint d)
              = Some (NilEmpty.string_of_uint d)).
  { pose proof (digits_string_of_uint d) as Hall.
    destruct d; try (now destruct Hd); cbn in *;
      now rewrite literal_digits_digits. }
  rewrite H, length_string_of_uint.
  apply N.leb_le in Hlen. now rewrite Hlen, NilEmpty.usu.
Qed.

Lemma int_unsigned s :
  s <> EmptyString ->
  all_chars is_digit s = true ->
  int s = magnitude s.
Proof.
  intros Hs H. unfold int. rewrite (strip_digits _ H).
  destruct s as [|a s]; [now destruct Hs|].
  cbn in H. apply andb_prop in H as [Ha _].
  destruct a as [[] [] [] [] [] [] [] []]; try reflexivity; discriminate.
Qed.

Lemma int_negative s :
  all_chars is_digit s = true ->
  int (String "-" s) = option_map Z.opp (magnitude s).
Proof.
  intros H. unfold int, strip.
  change (lstrip (String "-" s)) with (String "-" s).
  rewrite rstrip_plain; [reflexivity|].
  cbn. now apply digits_no_space.
Qed.

Lemma string_of_uint_not_empty d :
  d <> Decimal.Nil -> NilEmpty.string_of_uint d <> EmptyString.
Proof.
  destruct d; intros H; cbn; congruence.
Qed.

(** [int(str(n)) == n], for an integer within the limit of [int]. *)
Lemma int_str n :
  (N.of_nat (printed_digits n) <= max_str_digits)%N -> int (str n) = Some n.
Proof.
  unfold str. destruct n as [|p|p]; [reflexivity| |]; cbn [printed_digits]; intros Hlen.
  - cbn [Z.to_int NilZero.string_of_int].
    pose proof (Unsigned.to_uint_nonnil p) as Hnil.
    assert (E : NilZero.string_of_uint (Pos.to_uint p)
                = NilEmpty.string_of_uint (Pos.to_uint p))
      by (destruct (Pos.to_uint p); [now destruct Hnil | reflexivity..]).
    rewrite E, int_unsigned, magnitude_digits; auto using digits_string_of_uint,
      string_of_uint_not_empty.
    unfold Z.of_uint. now rewrite Unsigned.of_to.
  - cbn [Z.to_int NilZero.string_of_int].
    pose proof (Unsigned.to_uint_nonnil p) as Hnil.
    assert (E : NilZero.string_of_uint (Pos.to_uint p)
                = NilEmpty.string_of_uint (Pos.to_uint p))
      by (destruct (Pos.to_uint p); [now destruct Hnil | reflexivity..]).
    rewrite E, int_negative, magnitude_digits; auto using digits_string_of_uint.
    unfold Z.of_uint. now rewrite Unsigned.of_to.
Qed.

(** What [int] returns is the value of a run of at most [max_str_digits]
    digits, with a sign. *)
Lemma int_sign s : exists r, int s = magnitude r \/ int s = option_map Z.opp (magnitude r).
Proof.
  unfold int. destruct (strip s) as [|c r].
  - exists EmptyString. now left.
  - destruct c as [[] [] [] [] [] [] [] []];
      first [ exists r; left; reflexivity
            | exists r; right; reflexivity
            | eexists; left; reflexivity ].
Qed.

Lemma magnitude_value r m :
  magnitude r = Some m ->
  exists d, (N.of_nat (Decimal.nb_digits d) <= max_str_digits)%N /\ m = Z.of_uint d.
Proof.
  unfold magnitude.
  destruct (literal_digits false r) as [ds|]; [|discriminate].
  destruct (N.of_nat (String.length ds) <=? max_str_digits)%N eqn:Hlen; [|discriminate].
  destruct (NilEmpty.uint_of_string ds) as [d|] eqn:Hd; [|discriminate].
  intros [= <-]. exists d. split; [|reflexivity].
  apply NilEmpty.sus in Hd. rewrite <- Hd, length_string_of_uint in Hlen.
  now apply N.leb_le.
Qed.

Lemma printed_digits_of_uint d :
  (printed_digits (Z.of_uint d) <= Nat.max 1 (Decimal.nb_digits d))%nat.
Proof.
  unfold Z.of_uint.
  destruct (Pos.of_uint d) as [|p] eqn:E; cbn [Z.of_N printed_digits]; [lia|].
  assert (Hd : d <> Decimal.Nil) by (intros ->; discriminate).
  pose proof (Unsigned.to_of d) as Hto. rewrite E in Hto. cbn [N.to_uint] in Hto.
  rewrite Hto. pose proof (DecimalFacts.nb_digits_unorm d Hd). lia.
Qed.

(** [int] reads again what [str] prints of an integer that [int] has read. *)
Lemma int_str_of_int s n : int s = Some n -> int (str n) = Some n.
Proof.
  intros H. apply int_str.
  destruct (int_sign s) as [r [E|E]]; rewrite E in H.
  - apply magnitude_value in H as (d & Hlen & ->).
    pose proof (printed_digits_of_uint d). unfold max_str_digits in *. lia.
  - destruct (magnitude r) as [m|] eqn:Hm; [|discriminate].
    injection H as <-.
    apply magnitude_value in Hm as (d & Hlen & ->).
    pose proof (printed_digits_of_uint d).
    assert (Ho : printed_digits (- Z.of_uint d) = printed_digits (Z.of_uint d))
      by (now destruct (Z.of_uint d)).
    rewrite Ho. unfold max_str_digits in *. lia.
Qed.

(** The integers from 0 to 100 are within the limit. *)
Lemma int_str_percent n : 0 <= n <= 100 -> int (str n) = Some n.
Proof.
  intros Hn.
  assert (H : forall k, (k <= 100)%nat -> int (str (Z.of_nat k)) = Some (Z.of_nat k)).
  { intros k Hk. do 101 (destruct k as [|k]; [reflexivity|]). lia. }
  rewrite <- (Z2Nat.id n) by lia. apply H. lia.
Qed.

(** A printed integer holds no comma. *)
Lemma count_comma_str n : count "," (str n) = 0%nat.
Proof.
  assert (Hd : forall s, all_chars is_digit s = true -> count "," s = 0%nat).
  { induction s as [|a s IH]; cbn; [reflexivity|].
    intros H. apply andb_prop in H as [Ha Hs].
    now rewrite (digit_not_comma _ Ha), (IH Hs). }
  unfold str. destruct n as [|p|p]; [reflexivity| |];
    cbn [Z.to_int NilZero.string_of_int];
    pose proof (Unsigned.to_uint_nonnil p) as Hnil;
    assert (E : NilZero.string_of_uint (Pos.to_uint p)
                = NilEmpty.string_of_uint (Pos.to_uint p))
      by (destruct (Pos.to_uint p); [now destruct Hnil | reflexivity..]);
    rewrite E; cbn [count]; rewrite ?Hd; auto using digits_string_of_uint.
Qed.

End PyStrFacts.

(* ------------------------------------------------------------------ *)
(** ** What a computation can emit *)

Section Emits.

Context {W : Type}.
Variable requests : Requests W.
Variable cfg : Config.
Variable P : effect -> Prop.

Lemma emits_ret A (a : A) : emits (W := W) P (ret a).
Proof. intros w. constructor. Qed.

Lemma emits_raise A e : emits (W := W) (A := A) P (raise e).
Proof. intros w. constructor. Qed.

Lemma emits_emit e : P e -> emits (W := W) P (emit e).
Proof. intros H w. repeat constructor. exact H. Qed.

Lemma emits_bind A B (m : M W A) (k : A -> M W B) :
  emits P m -> (forall a, emits P (k a)) -> emits P (bind m k).
Proof.
  intros Hm Hk w. specialize (Hm w). unfold bind, trace_of in *.
  destruct (m w) as [[[a|e] w1] t1]; cbn [snd] in *; [|exact Hm].
  specialize (Hk a w1). unfold trace_of in Hk.
  destruct (k a w1) as [[r w2] t2]; cbn [snd] in *.
  apply Forall_app. now split.
Qed.

Lemma emits_post url state : P (Post url state) -> emits P (post requests url state).
Proof.
  intros H w. unfold post, trace_of.
  destruct (requests_post requests url state w). repeat constructor. exact H.
Qed.

Lemma emits_get url : P (Get url) -> emits P (get requests url).
Proof.
  intros H w. unfold get, trace_of.
  destruct (requests_get requests url w). repeat constructor. exact H.
Qed.

End Emits.

Section Quiet.

Context {W : Type}.
Variable requests : Requests W.
Variable cfg : Config.

Ltac quiet_step :=
  first
    [ apply emits_ret
    | apply emits_raise
    | apply emits_emit; discriminate
    | apply emits_post; discriminate
    | apply emits_get; discriminate
    | apply emits_bind; [|intros ?]
    | match goal with
      | |- emits _ (if ?b then _ else _) => destruct b
      | |- emits _ (match ?x with _ => _ end) => destruct x
      end ].

Lemma quiet_openhab_send item state :
  emits quiet (openhab_send requests cfg item state).
Proof.
  unfold openhab_send, debug_print, say, print, quiet. repeat quiet_step.
Qed.

(** Nothing in the dispatch starts a conversation. *)
Lemma quiet_dispatch text : emits quiet (dispatch requests cfg text).
Proof.
  pose proof quiet_openhab_send as Hsend.
  unfold dispatch, direct_state_group, specific_light, increase_group, decrease_group,
    reboot_group, set_color, openhab_get_state, power_off_pi, reboot_pi, not_recognized,
    device_not_found, getitem, int_of, say, print.
  repeat first [ apply Hsend | unfold quiet; quiet_step; fold quiet ].
Qed.

End Quiet.

(* ------------------------------------------------------------------ *)
(** ** Reading a run *)

Section Reading.

Context {W : Type}.
Variable requests : Requests W.
Variable cfg : Config.

Lemma trace_heard self said (run : outcome unit * W * list effect) :
  trace_of (heard self said run)
  = Print ("You said: " ++ said) :: StopConversation :: trace_of run.
Proof. destruct run as [[[[]|e] w] t]; reflexivity. Qed.

Lemma network_calls_heard self said (run : outcome unit * W * list effect) :
  network_calls (trace_of (heard self said run)) = network_calls (trace_of run).
Proof. rewrite trace_heard. reflexivity. Qed.

Lemma says_heard self said (run : outcome unit * W * list effect) :
  filter is_say (trace_of (heard self said run)) = filter is_say (trace_of run).
Proof. rewrite trace_heard. reflexivity. Qed.

Lemma result_heard self said (run : outcome unit * W * list effect) :
  result_of (heard self said run)
  = match result_of run with
    | Returned _ => Returned self
    | Raised e => Raised e
    end.
Proof. destruct run as [[[[]|e] w] t]; reflexivity. Qed.

Lemma world_heard self said (run : outcome unit * W * list effect) :
  world_of (heard self said run) = world_of run.
Proof. destruct run as [[[[]|e] w] t]; reflexivity. Qed.

Lemma network_calls_fetch_then_send color item state w :
  network_calls (trace_of (fetch_then_send requests cfg color item state w))
  = [Get (state_url cfg color); Post (item_url cfg item) state].
Proof.
  unfold fetch_then_send, trace_of, network_calls. cbn [snd filter is_network].
  do 2 f_equal. apply network_calls_send_report.
Qed.

End Reading.

(* ------------------------------------------------------------------ *)
(** ** The activation keyword *)

(** C1, as stated, fails: the handler tests a prefix of characters, not the
    first word.  "homework turn on all lights" passes the test, and the
    group of all lights is switched on, although its first word is not the
    activation keyword. *)
Lemma C1_counterexample :
  let said := "homework turn on all lights" in
  dispatched (hear "NULL" 200 said)
  /\ network_calls (trace_of (hear "NULL" 200 said))
     = [Post "http://localhost:8080/rest/items/Lights_ALL" "ON"]
  /\ String.eqb (PyStr.first_token (PyStr.lower said)) (custom_hotword shipped) = false.
Proof.
  cbv zeta. split; [|split]; [|reflexivity|reflexivity].
  unfold dispatched. vm_compute. auto.
Qed.

(** C1, amended: the dispatch runs if and only if the lower-cased text
    starts with the activation keyword, as a prefix of characters.  When it
    does, the handler echoes the text, stops the assistant's conversation and
    dispatches the text with a space appended; when it does not, it echoes the
    text and does nothing else, and the backend is left as it was.  A text
    whose first word is the keyword always passes. *)
Theorem C1_dispatch_iff_prefix
    (W : Type) (requests : Requests W) (cfg : Config)
    (self : MyAssistant) (said : string) (w : W) :
  let run :=
    process_event requests cfg self (ON_RECOGNIZING_SPEECH_FINISHED (Some said)) w in
  let hot := PyStr.startswith (PyStr.lower said) (custom_hotword cfg) in
  (dispatched run <-> hot = true)
  /\ (hot = true -> run = heard self said (dispatch requests cfg (command_text said) w))
  /\ (hot = false -> run = (Returned self, w, [Print ("You said: " ++ said)]))
  /\ (PyStr.first_token (PyStr.lower said) = custom_hotword cfg -> hot = true).
Proof.
  cbv zeta.
  destruct (PyStr.startswith (PyStr.lower said) (custom_hotword cfg)) eqn:Hhot.
  - rewrite (process_event_hot _ _ _ _ _ Hhot).
    repeat split; auto; try discriminate.
    intros _. unfold dispatched. rewrite trace_heard. cbn. auto.
  - rewrite (process_event_cold _ _ _ _ _ Hhot).
    repeat split; auto; try discriminate.
    + unfold dispatched. cbn. intros [H|[]]. discriminate.
    + intros Htok. unfold PyStr.startswith in Hhot.
      rewrite <- Htok, PyStrFacts.prefix_first_token in Hhot. discriminate.
Qed.

(* ------------------------------------------------------------------ *)
(** ** Reports of a push *)

(** C6: a push is one POST, made once; what is then spoken is a function of
    the status code of the answer alone: "OK" for 200, one message for 400,
    another for 404, a fourth for every other code. *)
Theorem C6_report_by_status_code
    (W : Type) (requests : Requests W) (cfg : Config) (item state : string) (w : W) :
  let run := openhab_send requests cfg item state w in
  let answer := requests_post requests (item_url cfg item) state w in
  result_of run = Returned tt
  /\ world_of run = snd answer
  /\ network_calls (trace_of run) = [Post (item_url cfg item) state]
  /\ filter is_say (trace_of run) = [Say (status_message (status_code (fst answer)))]
  /\ status_message 200 = "OK"
  /\ status_message 400 = "There has been an error: bad command"
  /\ status_message 404 = "There has been an error: unknown item"
  /\ (forall code, code <> 200 -> code <> 400 -> code <> 404 ->
        status_message code = "Command failed")
  /\ NoDup [status_message 200; status_message 400; status_message 404; "Command failed"].
Proof.
  cbv zeta. rewrite openhab_send_run.
  unfold result_of, world_of, trace_of. cbn [fst snd].
  repeat split; try reflexivity.
  - unfold network_calls. cbn [filter is_network].
    now rewrite (network_calls_send_report cfg).
  - cbn [filter is_say]. now rewrite says_send_report.
  - intros code H200 H400 H404. unfold status_message.
    apply Z.eqb_neq in H200, H400, H404. now rewrite H200, H400, H404.
  - repeat constructor; cbn; intuition discriminate.
Qed.

(* ------------------------------------------------------------------ *)
(** ** Commands for one light *)

(** C2, as stated, fails: a colour temperature command makes two requests.
    The state of the colour item is fetched as soon as the light is
    resolved, before the handler looks at the action word. *)
Lemma C2_counterexample :
  let run := hear "120,50,75" 200 "Home set the office light cool" in
  network_calls (trace_of run)
  = [Get "http://localhost:8080/rest/items/hue_0210_00178828e0d0_1_color/state";
     Post "http://localhost:8080/rest/items/hue_0210_00178828e0d0_1_color_temperature" "0"]
  /\ List.length (network_calls (trace_of run)) = 2%nat.
Proof. split; reflexivity. Qed.

(** C2, amended: a colour temperature command for a resolved light makes
    exactly two requests: the fetch of the state of the light's colour item,
    whose answer is not used, then one push of the literal level to the
    light's colour temperature item: "0" for cool, "100" for warm, "50" for
    natural, the first of these words that the text contains. *)
Theorem C2_temperature_fetch_then_push
    (W : Type) (requests : Requests W) (cfg : Config)
    (self : MyAssistant) (said : string) (w : W) (color temp level : string) :
  let text := command_text said in
  let run :=
    process_event requests cfg self (ON_RECOGNIZING_SPEECH_FINISHED (Some said)) w in
  PyStr.startswith (PyStr.lower said) (custom_hotword cfg) = true ->
  single_light_direct text = true ->
  resolves cfg text color temp ->
  switch_word text = false ->
  color_word text = None ->
  temperature_word text = Some level ->
  result_of run = Returned self
  /\ network_calls (trace_of run)
     = [Get (state_url cfg color); Post (item_url cfg temp) level]
  /\ level = (if PyStr.contains " cool " text then "0"
              else if PyStr.contains " warm " text then "100"
              else "50").
Proof.
  cbv zeta. intros Hhot Hsingle Hres Hsw Hcw Htw.
  rewrite (process_event_hot _ _ _ _ _ Hhot), result_heard, network_calls_heard.
  rewrite (dispatch_specific_light _ _ _ _ Hsingle).
  rewrite (temperature_run _ _ _ _ _ _ _ Hres Hsw Hcw Htw).
  rewrite network_calls_fetch_then_send.
  repeat split.
  unfold temperature_word in Htw.
  destruct (PyStr.contains " cool " (command_text said)); [congruence|].
  destruct (PyStr.contains " warm " (command_text said)); [congruence|].
  destruct (PyStr.contains " natural " (command_text said)); congruence.
Qed.

Lemma C2_witness :
  let said := "Home set the office light warm" in
  let run := hear "NULL" 200 said in
  result_of run = Returned init
  /\ network_calls (trace_of run)
     = [Get (state_url shipped "hue_0210_00178828e0d0_1_color");
        Post (item_url shipped "hue_0210_00178828e0d0_1_color_temperature") "100"]
  /\ "100" = (if PyStr.contains " cool " (command_text said) then "0"
              else if PyStr.contains " warm " (command_text said) then "100"
              else "50").
Proof.
  apply (C2_temperature_fetch_then_push unit (canned "NULL" 200) shipped init
           "Home set the office light warm" tt
           "hue_0210_00178828e0d0_1_color"
           "hue_0210_00178828e0d0_1_color_temperature" "100");
    try reflexivity.
  exists 0%nat. repeat split; reflexivity.
Defined.

(** C4: a colour command for a resolved light pushes, to the light's colour
    item, the hue of the colour (red 0, yellow 100, blue 260, pink 340,
    green 140; the first of these words that the text contains), saturation
    100, and the third comma-separated field of the state it has just
    fetched, as it is. *)
Theorem C4_color_keeps_brightness
    (W : Type) (requests : Requests W) (cfg : Config)
    (self : MyAssistant) (said : string) (w : W)
    (color temp hue brightness : string) :
  let text := command_text said in
  let run :=
    process_event requests cfg self (ON_RECOGNIZING_SPEECH_FINISHED (Some said)) w in
  PyStr.startswith (PyStr.lower said) (custom_hotword cfg) = true ->
  single_light_direct text = true ->
  resolves cfg text color temp ->
  switch_word text = false ->
  color_word text = Some hue ->
  nth_error (PyStr.split "," (fetched requests cfg color w)) 2 = Some brightness ->
  result_of run = Returned self
  /\ network_calls (trace_of run)
     = [Get (state_url cfg color);
        Post (item_url cfg color) (hue ++ ",100," ++ brightness)]
  /\ hue = (if PyStr.contains " red " text then "0"
            else if PyStr.contains " yellow " text then "100"
            else if PyStr.contains " blue " text then "260"
            else if PyStr.contains " pink " text then "340"
            else "140").
Proof.
  cbv zeta. intros Hhot Hsingle Hres Hsw Hcw Hfield.
  rewrite (process_event_hot _ _ _ _ _ Hhot), result_heard, network_calls_heard.
  rewrite (dispatch_specific_light _ _ _ _ Hsingle).
  rewrite (color_run _ _ _ _ _ _ _ Hres Hsw Hcw), Hfield.
  rewrite network_calls_fetch_then_send.
  repeat split.
  unfold color_word in Hcw.
  destruct (PyStr.contains " red " (command_text said)); [congruence|].
  destruct (PyStr.contains " yellow " (command_text said)); [congruence|].
  destruct (PyStr.contains " blue " (command_text said)); [congruence|].
  destruct (PyStr.contains " pink " (command_text said)); [congruence|].
  destruct (PyStr.contains " green " (command_text said)); congruence.
Qed.

Lemma C4_witness :
  let said := "Home turn the office light red" in
  let run := hear "120,50,75" 200 said in
  result_of run = Returned init
  /\ network_calls (trace_of run)
     = [Get (state_url shipped "hue_0210_00178828e0d0_1_color");
        Post (item_url shipped "hue_0210_00178828e0d0_1_color") ("0" ++ ",100," ++ "75")]
  /\ "0" = (if PyStr.contains " red " (command_text said) then "0"
            else if PyStr.contains " yellow " (command_text said) then "100"
            else if PyStr.contains " blue " (command_text said) then "260"
            else if PyStr.contains " pink " (command_text said) then "340"
            else "140").
Proof.
  apply (C4_color_keeps_brightness unit (canned "120,50,75" 200) shipped init
           "Home turn the office light red" tt
           "hue_0210_00178828e0d0_1_color"
           "hue_0210_00178828e0d0_1_color_temperature" "0" "75");
    try reflexivity.
  exists 0%nat. repeat split; reflexivity.
Defined.

(* ------------------------------------------------------------------ *)
(** ** Brightness *)

(** C3, as stated, fails: the increase group bounds the new brightness from
    above only, the decrease group from below only.  From a fetched
    brightness of -50 an increase pushes -25, where clamping to the interval
    from 0 to 100 gives 0. *)
Lemma C3_counterexample :
  let run := hear "120,50,-50" 200 "Home increase the office light brightness" in
  PyStr.split "," "120,50,-50" = ["120"; "50"; "-50"]
  /\ PyStr.int "-50" = Some (-50)
  /\ network_calls (trace_of run)
     = [Get "http://localhost:8080/rest/items/hue_0210_00178828e0d0_1_color/state";
        Post "http://localhost:8080/rest/items/hue_0210_00178828e0d0_1_color" "120,50,-25"]
  /\ recombine "120" "50" (clamp (-50 + 25)) = "120,50,0".
Proof. repeat split; reflexivity. Qed.

(** C3, amended: a brightness command on a resolved light whose fetched
    state has the integer brightness [b] in its third field pushes the first
    two fields as they are, followed by the smaller of [b + 25] and 100 for
    the increase group and by the larger of [b - 25] and 0 for the decrease
    group.  For [b] between 0 and 100 this is [b + 25] or [b - 25] clamped
    to the interval from 0 to 100: 90 is raised to 100, 10 is lowered to 0. *)
Theorem C3_brightness_bounded_on_one_side
    (W : Type) (requests : Requests W) (cfg : Config)
    (self : MyAssistant) (said : string) (w : W) (up : bool)
    (color hue saturation field : string) (rest : list string) (b : Z) :
  let text := command_text said in
  let run :=
    process_event requests cfg self (ON_RECOGNIZING_SPEECH_FINISHED (Some said)) w in
  PyStr.startswith (PyStr.lower said) (custom_hotword cfg) = true ->
  adjust_verb up text = true ->
  brightness_scope text = true ->
  resolves_color cfg text color ->
  PyStr.split "," (fetched requests cfg color w) = hue :: saturation :: field :: rest ->
  PyStr.int field = Some b ->
  result_of run = Returned self
  /\ network_calls (trace_of run)
     = [Get (state_url cfg color);
        Post (item_url cfg color)
          (hue ++ "," ++ saturation ++ "," ++ PyStr.str (new_brightness up b))]
  /\ new_brightness up b = (if up then Z.min (b + 25) 100 else Z.max (b - 25) 0)
  /\ (0 <= b <= 100 -> new_brightness up b = clamp (if up then b + 25 else b - 25))
  /\ new_brightness true 90 = 100
  /\ new_brightness false 10 = 0.
Proof.
  cbv zeta. intros Hhot Hverb Hscope Hres Hsplit Hint.
  rewrite (process_event_hot _ _ _ _ _ Hhot), result_heard, network_calls_heard.
  rewrite (adjust_run _ _ _ _ _ _ Hverb Hscope Hres), Hsplit, Hint.
  rewrite network_calls_fetch_then_send.
  repeat split.
  - unfold new_brightness. destruct up.
    + destruct (b + 25 >? 100) eqn:E; [apply Z.gtb_lt in E | rewrite Z.gtb_ltb in E;
        apply Z.ltb_ge in E]; lia.
    + destruct (b - 25 <? 0) eqn:E; [apply Z.ltb_lt in E | apply Z.ltb_ge in E]; lia.
  - intros Hb. unfold new_brightness, clamp. destruct up.
    + destruct (b + 25 >? 100) eqn:E; [apply Z.gtb_lt in E | rewrite Z.gtb_ltb in E;
        apply Z.ltb_ge in E]; lia.
    + destruct (b - 25 <? 0) eqn:E; [apply Z.ltb_lt in E | apply Z.ltb_ge in E]; lia.
Qed.

Lemma C3_witness :
  let run := hear "120,50,90" 200 "Home raise the office light brightness" in
  result_of run = Returned init
  /\ network_calls (trace_of run)
     = [Get (state_url shipped "hue_0210_00178828e0d0_1_color");
        Post (item_url shipped "hue_0210_00178828e0d0_1_color")
          ("120" ++ "," ++ "50" ++ "," ++ PyStr.str (new_brightness true 90))]
  /\ new_brightness true 90 = (if true then Z.min (90 + 25) 100 else Z.max (90 - 25) 0)
  /\ (0 <= 90 <= 100 -> new_brightness true 90 = clamp (if true then 90 + 25 else 90 - 25))
  /\ new_brightness true 90 = 100
  /\ new_brightness false 10 = 0.
Proof.
  apply (C3_brightness_bounded_on_one_side unit (canned "120,50,90" 200) shipped init
           "Home raise the office light brightness" tt true
           "hue_0210_00178828e0d0_1_color" "120" "50" "90" [] 90);
    try reflexivity.
  exists 0%nat. split; reflexivity.
Defined.

(* ------------------------------------------------------------------ *)
(** ** Reports made without a push *)

Lemma any_idx_from_none start iterable :
  (forall element, In element iterable -> element = false) ->
  any_idx_from start iterable = None.
Proof.
  revert start. induction iterable as [|element rest IH]; intros start H; cbn.
  - reflexivity.
  - rewrite (H element (or_introl eq_refl)). apply IH.
    intros e He. apply H. now right.
Qed.

(** No configured name occurs in the text: the device is not resolved. *)
Lemma idx_in_none names text :
  (forall name, In name names -> PyStr.contains name text = false) ->
  idx_in names text = None.
Proof.
  intros H. apply any_idx_from_none.
  intros element Hin. apply in_map_iff in Hin as (name & <- & Hname). now apply H.
Qed.

(** C5, as stated, fails in its second half: "turn the office light purple"
    ends in the report that the action is not recognized, after the state of
    the resolved light has been fetched. *)
Lemma C5_counterexample :
  let run := hear "120,50,75" 200 "Home turn the office light purple" in
  In (Say not_recognized_message) (trace_of run)
  /\ network_calls (trace_of run)
     = [Get "http://localhost:8080/rest/items/hue_0210_00178828e0d0_1_color/state"].
Proof.
  split; [|reflexivity]. vm_compute. auto.
Qed.

(** C5, amended: a command for one light, of the direct-state group or of
    the brightness groups, whose text contains no configured name ends in the
    report that the device is not known, and makes no request.  A run that
    reports an unrecognized action pushes nothing; it makes no request at
    all, except when the command is a direct-state command for a resolved
    light without a known action word: there the state of the light has
    been fetched, once, before the report. *)
Theorem C5_reports_without_push
    (W : Type) (requests : Requests W) (cfg : Config)
    (self : MyAssistant) (said : string) (w : W) :
  let text := command_text said in
  let run :=
    process_event requests cfg self (ON_RECOGNIZING_SPEECH_FINISHED (Some said)) w in
  PyStr.startswith (PyStr.lower said) (custom_hotword cfg) = true ->
  ((single_light_direct text = true
    \/ exists up, adjust_verb up text = true /\ brightness_scope text = true) ->
   (forall name, In name (lights_ids cfg) -> PyStr.contains name text = false) ->
   run = (Returned self, w,
          [Print ("You said: " ++ said); StopConversation; Say device_not_found_message])
   /\ network_calls (trace_of run) = [])
  /\ (In (Say not_recognized_message) (trace_of run) ->
      filter is_post (trace_of run) = []
      /\ (network_calls (trace_of run) = []
          \/ exists color temp,
               resolves cfg text color temp
               /\ single_light_direct text = true
               /\ switch_word text = false
               /\ color_word text = None
               /\ temperature_word text = None
               /\ network_calls (trace_of run) = [Get (state_url cfg color)])).
Proof.
  cbv zeta. intros Hhot.
  rewrite (process_event_hot _ _ _ _ _ Hhot).
  split.
  - intros Hcmd Hnames. pose proof (idx_in_none _ _ Hnames) as Hidx.
    assert (E : dispatch requests cfg (command_text said) w
                = (Returned tt, w, [Say device_not_found_message])).
    { destruct Hcmd as [Hsingle | (up & Hverb & Hscope)].
      - rewrite (dispatch_specific_light _ _ _ _ Hsingle).
        now apply specific_light_unknown.
      - now apply (adjust_unknown _ _ up). }
    rewrite E. split; reflexivity.
  - rewrite trace_heard. intros [H|[H|H]]; try discriminate.
    destruct (not_recognized_trace _ _ _ _ H) as [E | (color & temp & Hr & Hs & Hsw & Hcw & Htw & E)];
      rewrite E; cbn.
    + split; [reflexivity | now left].
    + split; [reflexivity|]. right. exists color, temp. repeat split; auto.
Qed.

Lemma C5_witness :
  let said := "Home turn off the kitchen light" in
  let run := hear "NULL" 200 said in
  run = (Returned init, tt,
         [Print ("You said: " ++ said); StopConversation; Say device_not_found_message])
  /\ network_calls (trace_of run) = [].
Proof.
  apply (proj1 (C5_reports_without_push unit (canned "NULL" 200) shipped init
                  "Home turn off the kitchen light" tt eq_refl)).
  - left. reflexivity.
  - intros name [<-|[]]. reflexivity.
Defined.

(* ------------------------------------------------------------------ *)
(** ** The light-scope test of the brightness groups *)

(** C7: the increase and decrease groups test the bare substring "light"
    (lines 256 and 275), where the direct-state group tests the padded token
    (line 209).  In "home increase the office flashlight brightness" the word
    occurs only inside a longer word; the text holds neither padded token,
    yet the command is carried out: the state is fetched and the raised
    brightness is pushed, and nothing is reported as unrecognized. *)
Theorem C7_bare_substring_accepted :
  let said := "home increase the office flashlight brightness" in
  let text := command_text said in
  let run := hear "120,50,40" 200 said in
  PyStr.contains " light " text = false
  /\ PyStr.contains " lights " text = false
  /\ PyStr.contains "light" text = true
  /\ brightness_scope text = true
  /\ network_calls (trace_of run)
     = [Get "http://localhost:8080/rest/items/hue_0210_00178828e0d0_1_color/state";
        Post "http://localhost:8080/rest/items/hue_0210_00178828e0d0_1_color" "120,50,65"]
  /\ filter is_say (trace_of run) = [Say "OK"].
Proof. repeat split; reflexivity. Qed.

(* ------------------------------------------------------------------ *)
(** ** The button *)

Section Busy.

Context {W : Type}.
Variable requests : Requests W.
Variable cfg : Config.

Lemma quiet_recognized said : emits quiet (recognized requests cfg said).
Proof.
  unfold recognized, print.
  apply emits_bind; [apply emits_emit; discriminate|intros _].
  destruct (PyStr.startswith (PyStr.lower said) (custom_hotword cfg));
    [|apply emits_ret].
  apply emits_bind; [apply emits_emit; discriminate|intros _].
  apply quiet_dispatch.
Qed.

(** While no conversation may start, a stimulus that does not release the
    object starts none and leaves the flag down. *)
Lemma react_busy self s w :
  can_start_conversation self = false ->
  releases s = false ->
  Forall quiet (trace_of (react requests cfg self s w))
  /\ forall self', result_of (react requests cfg self s w) = Returned self' ->
                   can_start_conversation self' = false.
Proof.
  intros Hbusy Hs.
  destruct s as [event|]; cbn [react].
  - destruct event as [| | |[said|]| |[[|]|]|]; try discriminate; cbn.
    + split; [repeat constructor; discriminate | now intros self' [= <-]].
    + split; [repeat constructor; discriminate | now intros self' [= <-]].
    + pose proof (quiet_recognized said w) as Hq.
      unfold bind, ret, trace_of, result_of in *.
      destruct (recognized requests cfg said w) as [[[[]|e] w1] t1]; cbn in *.
      * rewrite app_nil_r. split; [exact Hq | now intros self' [= <-]].
      * split; [exact Hq | discriminate].
    + split; [constructor | now intros self' [= <-]].
    + split; [constructor | discriminate].
    + split; [constructor | now intros self' [= <-]].
    + split; [constructor | now intros self' [= <-]].
    + split; [constructor | now intros self' [= <-]].
  - unfold on_button_pressed. rewrite Hbusy. cbn.
    split; [constructor | now intros self' [= <-]].
Qed.

Lemma session_busy stimuli : forall self w,
  can_start_conversation self = false ->
  forallb (fun s => negb (releases s)) stimuli = true ->
  Forall quiet (trace_of (session requests cfg self stimuli w))
  /\ forall self', result_of (session requests cfg self stimuli w) = Returned self' ->
                   can_start_conversation self' = false.
Proof.
  induction stimuli as [|s rest IH]; intros self w Hbusy Hall; cbn [session].
  - cbn. split; [constructor | now intros self' [= <-]].
  - cbn [forallb] in Hall. apply andb_prop in Hall as [Hs Hrest].
    apply negb_true_iff in Hs.
    destruct (react_busy self s w Hbusy Hs) as [Hq Hflag].
    unfold bind, trace_of, result_of in *.
    destruct (react requests cfg self s w) as [[[self1|e] w1] t1]; cbn [fst snd] in *.
    + specialize (IH self1 w1 (Hflag self1 eq_refl) Hrest).
      destruct (session requests cfg self1 rest w1) as [[r w2] t2]; cbn [fst snd] in *.
      destruct IH as [IHq IHflag].
      split; [apply Forall_app; now split | exact IHflag].
    + split; [exact Hq | discriminate].
Qed.

End Busy.

(** C8: while [can_start_conversation] is false, a press of the button does
    nothing: no conversation is started and the object is unchanged.  The
    flag is false from the construction of the object, and is set to false
    by the start of a turn; from a state in which it is false, no sequence of
    presses and of events other than the end of the start-up and the end of a
    turn starts a conversation or raises the flag. *)
Theorem C8_button_is_noop_while_busy
    (W : Type) (requests : Requests W) (cfg : Config) (self : MyAssistant) (w : W) :
  can_start_conversation self = false ->
  on_button_pressed self w = (Returned self, w, [])
  /\ (forall stimuli,
        forallb (fun s => negb (releases s)) stimuli = true ->
        ~ In StartConversation (trace_of (session requests cfg self stimuli w))
        /\ forall self',
             result_of (session requests cfg self stimuli w) = Returned self' ->
             can_start_conversation self' = false)
  /\ can_start_conversation init = false
  /\ (forall before,
        exists after,
          result_of (process_event requests cfg before ON_CONVERSATION_TURN_STARTED w)
          = Returned after
          /\ can_start_conversation after = false).
Proof.
  intros Hbusy. split; [|split; [|split]].
  - unfold on_button_pressed. now rewrite Hbusy.
  - intros stimuli Hall.
    destruct (session_busy requests cfg stimuli self w Hbusy Hall) as [Hq Hflag].
    split; [|exact Hflag].
    intros Hin. rewrite Forall_forall in Hq. now apply (Hq _ Hin).
  - reflexivity.
  - intros before. eexists. split; reflexivity.
Qed.

Lemma C8_witness :
  on_button_pressed init tt = (Returned init, tt, [])
  /\ ~ In StartConversation
       (trace_of (session (canned "120,50,75" 200) shipped init
                    [Pressed; Delivered ON_CONVERSATION_TURN_STARTED; Pressed;
                     Delivered ON_END_OF_UTTERANCE; Pressed;
                     Delivered (ON_RECOGNIZING_SPEECH_FINISHED
                                  (Some "Home turn on the office light"));
                     Pressed] tt)).
Proof.
  pose proof (C8_button_is_noop_while_busy unit (canned "120,50,75" 200) shipped init tt
                eq_refl) as [Hpress [Hrun _]].
  split; [exact Hpress|].
  refine (proj1 (Hrun _ _)). reflexivity.
Defined.

(* ------------------------------------------------------------------ *)
(** ** The wire value of a state *)

Lemma split_fields_plain sep s :
  Forall (fun field => PyStr.count sep field = 0%nat) (PyStr.split sep s).
Proof.
  induction s as [|a s IH]; cbn.
  - repeat constructor.
  - destruct (Ascii.eqb a sep) eqn:E.
    + constructor; [reflexivity | exact IH].
    + destruct (PyStr.split sep s) as [|f fs].
      * repeat constructor. cbn. now rewrite E.
      * inversion IH as [|? ? Hf Hfs]; subst.
        constructor; [cbn; now rewrite E | exact Hfs].
Qed.

Lemma append_cancel (s a b : string) : s ++ a = s ++ b -> a = b.
Proof.
  induction s as [|c s IH]; cbn; [auto|].
  intros [= H]. auto.
Qed.

Lemma split_recombine hue saturation b :
  PyStr.count "," hue = 0%nat ->
  PyStr.count "," saturation = 0%nat ->
  PyStr.split "," (recombine hue saturation b) = [hue; saturation; PyStr.str b].
Proof.
  intros Hh Hs. unfold recombine.
  change (hue ++ "," ++ saturation ++ "," ++ PyStr.str b)
    with (hue ++ String "," (saturation ++ String "," (PyStr.str b))).
  rewrite (PyStrFacts.split_app _ _ _ Hh), (PyStrFacts.split_app _ _ _ Hs).
  now rewrite (PyStrFacts.split_plain _ _ (PyStrFacts.count_comma_str b)).
Qed.

(** C9, as stated, fails: reading the brightness as an integer and printing
    it again drops what [int] tolerates.  The three-field value "120,50,075"
    comes back as "120,50,75". *)
Lemma C9_counterexample :
  PyStr.split "," "120,50,075" = ["120"; "50"; "075"]
  /\ reencode 0 "120,50,075" = Some "120,50,75"
  /\ String.eqb "120,50,75" "120,50,075" = false.
Proof. repeat split; reflexivity. Qed.

(** C9, amended: for a wire value of exactly three comma-separated fields
    whose third field reads as the integer [b], decoding and encoding again
    with every field unchanged gives back the value exactly when the third
    field is the numeral that [str] prints for [b] (no sign [+], leading
    zero, white space or underscore).  Splitting and joining alone always
    gives back the value, and a value encoded once is encoded to itself. *)
Theorem C9_round_trip_of_canonical_values
    (wire hue saturation field : string) (b : Z) :
  PyStr.split "," wire = [hue; saturation; field] ->
  PyStr.int field = Some b ->
  (reencode 0 wire = Some wire <-> PyStr.str b = field)
  /\ PyStr.join "," (PyStr.split "," wire) = wire
  /\ reencode 0 (recombine hue saturation b) = Some (recombine hue saturation b).
Proof.
  intros Hsplit Hint.
  pose proof (PyStrFacts.three_fields _ _ _ _ _ Hsplit) as Hwire.
  split; [|split].
  - unfold reencode. rewrite Hsplit, Hint, Z.add_0_r. unfold recombine.
    split.
    + intros [= H]. rewrite Hwire in H.
      apply append_cancel in H. injection H as H. apply append_cancel in H.
      now injection H.
    + intros <-. now rewrite Hwire.
  - apply PyStrFacts.join_split.
  - pose proof (split_fields_plain "," wire) as Hplain.
    rewrite Hsplit in Hplain.
    inversion Hplain as [|? ? Hh Hrest]; subst.
    inversion Hrest as [|? ? Hs _]; subst.
    unfold reencode.
    now rewrite (split_recombine _ _ _ Hh Hs), (PyStrFacts.int_str_of_int _ _ Hint), Z.add_0_r.
Qed.

Lemma C9_witness :
  (reencode 0 "120,50,75" = Some "120,50,75" <-> PyStr.str 75 = "75")
  /\ PyStr.join "," (PyStr.split "," "120,50,75") = "120,50,75"
  /\ reencode 0 (recombine "120" "50" 75) = Some (recombine "120" "50" 75).
Proof.
  apply (C9_round_trip_of_canonical_values "120,50,75" "120" "50" "75" 75);
    reflexivity.
Defined.

(* ------------------------------------------------------------------ *)
(** ** The numerals [int] reads *)

Lemma append_assoc (a b c : string) : (a ++ b) ++ c = a ++ b ++ c.
Proof. induction a as [|x a IH]; cbn; [reflexivity | now rewrite IH]. Qed.

Lemma append_nil_r (a : string) : a ++ EmptyString = a.
Proof. induction a as [|x a IH]; cbn; [reflexivity | now rewrite IH]. Qed.

Section Numerals.

Import PyStr.

Lemma lstrip_cut s :
  exists before, s = before ++ lstrip s /\ all_chars is_space before = true.
Proof.
  induction s as [|c s (before & E & H)]; cbn.
  - now exists EmptyString.
  - destruct (is_space c) eqn:Hc.
    + exists (String c before). cbn. rewrite Hc, H. now rewrite <- E.
    + now exists EmptyString.
Qed.

Lemma rstrip_cut s :
  exists after, s = rstrip s ++ after /\ all_chars is_space after = true.
Proof.
  induction s as [|c s (after & E & H)]; cbn.
  - now exists EmptyString.
  - destruct (rstrip s) as [|a r] eqn:Hr.
    + cbn in E. subst after. destruct (is_space c) eqn:Hc.
      * exists (String c s). cbn. now rewrite Hc, H.
      * now exists s.
    + exists after. cbn. split; [|exact H]. now rewrite E.
Qed.

Lemma lstrip_spaces before s :
  all_chars is_space before = true -> lstrip (before ++ s) = lstrip s.
Proof.
  induction before as [|c before IH]; cbn; [reflexivity|].
  intros H. apply andb_prop in H as [Hc H]. now rewrite Hc, IH.
Qed.

Lemma rstrip_spaces after :
  all_chars is_space after = true -> rstrip after = EmptyString.
Proof.
  induction after as [|c after IH]; cbn; [reflexivity|].
  intros H. apply andb_prop in H as [Hc H]. now rewrite (IH H), Hc.
Qed.

Lemma rstrip_app s after :
  all_chars is_space after = true -> rstrip (s ++ after) = rstrip s.
Proof.
  intros H. induction s as [|c s IH]; cbn.
  - now apply rstrip_spaces.
  - now rewrite IH.
Qed.

Lemma rstrip_last s c :
  is_space c = false -> rstrip (s ++ String c EmptyString) = s ++ String c EmptyString.
Proof.
  intros Hc. induction s as [|a s IH]; cbn.
  - now rewrite Hc.
  - rewrite IH. now destruct s.
Qed.

Lemma groups_first body n :
  digit_groups body n -> exists c rest, body = String c rest /\ is_digit c = true.
Proof. destruct 1; eauto. Qed.

Lemma groups_last_digit body n :
  digit_groups body n ->
  exists front c, body = front ++ String c EmptyString /\ is_digit c = true.
Proof.
  induction 1 as [c Hc | c s n Hc _ (front & l & -> & Hl) | c s n Hc _ (front & l & -> & Hl)].
  - now exists EmptyString, c.
  - now exists (String c front), l.
  - now exists (String c (String "_" front)), l.
Qed.

(** From the reader to the grammar. *)
Lemma literal_digits_groups r : forall ds,
  (literal_digits false r = Some ds -> digit_groups r (String.length ds))
  /\ (literal_digits true r = Some ds ->
      r = EmptyString
      \/ digit_groups r (String.length ds)
      \/ exists r', r = String "_" r' /\ digit_groups r' (String.length ds)).
Proof.
  induction r as [|c r IH]; intros ds; cbn.
  - split; [discriminate | now left].
  - destruct (is_digit c) eqn:Hc.
    + assert (Hboth : option_map (String c) (literal_digits true r) = Some ds ->
                      digit_groups (String c r) (String.length ds)).
      { destruct (literal_digits true r) as [ds'|] eqn:E; [|discriminate].
        intros [= <-]. cbn [String.length].
        destruct (proj2 (IH ds') eq_refl) as [-> | [Hg | (r' & -> & Hg)]].
        - cbn in E. injection E as <-. now constructor.
        - now apply groups_digit.
        - now apply groups_underscore. }
      split; [exact Hboth | intros H; right; left; now apply Hboth].
    + destruct (Ascii.eqb_spec c "_") as [->|Hne]; cbn; [|split; discriminate].
      split; [discriminate|].
      intros H. right. right. exists r. split; [reflexivity|].
      now apply (proj1 (IH ds)).
Qed.

(** From the grammar to the reader. *)
Lemma groups_literal_digits body n :
  digit_groups body n ->
  exists ds,
    literal_digits false body = Some ds
    /\ literal_digits true body = Some ds
    /\ String.length ds = n
    /\ all_chars is_digit ds = true.
Proof.
  induction 1 as [c Hc | c s n Hc _ (ds & _ & Ht & Hlen & Hall)
                  | c s n Hc _ (ds & Hf & _ & Hlen & Hall)].
  - exists (String c EmptyString). cbn. rewrite Hc. auto.
  - exists (String c ds). cbn. rewrite Hc, Ht. cbn. rewrite Hlen, Hall. auto.
  - exists (String c ds). cbn. rewrite Hc, Hf. cbn. rewrite Hlen, Hall. auto.
Qed.

Lemma uint_of_digits ds :
  all_chars is_digit ds = true -> exists d, NilEmpty.uint_of_string ds = Some d.
Proof.
  induction ds as [|c ds IH]; cbn; [now exists Decimal.Nil|].
  intros H. apply andb_prop in H as [Hc H]. destruct (IH H) as [d ->].
  destruct c as [[] [] [] [] [] [] [] []]; try discriminate; cbn; eauto.
Qed.

Lemma groups_magnitude body n :
  digit_groups body n ->
  (N.of_nat n <= max_str_digits)%N ->
  exists m, magnitude body = Some m.
Proof.
  intros Hg Hn.
  destruct (groups_literal_digits _ _ Hg) as (ds & Hf & _ & Hlen & Hall).
  destruct (uint_of_digits _ Hall) as [d Hd].
  unfold magnitude. rewrite Hf, Hlen, Hd.
  apply N.leb_le in Hn. rewrite Hn. cbn. eauto.
Qed.

Lemma magnitude_groups r m :
  magnitude r = Some m ->
  exists n, digit_groups r n /\ (N.of_nat n <= max_str_digits)%N.
Proof.
  unfold magnitude.
  destruct (literal_digits false r) as [ds|] eqn:E; [|discriminate].
  destruct (N.of_nat (String.length ds) <=? max_str_digits)%N eqn:Hlen; [|discriminate].
  intros _. exists (String.length ds). split.
  - now apply (proj1 (literal_digits_groups r ds)).
  - now apply N.leb_le.
Qed.

(** The sign and the digits of what [int] reads. *)
Lemma int_parts s :
  exists sign r,
    strip s = sign ++ r
    /\ (sign = EmptyString \/ sign = "+" \/ sign = "-")
    /\ (int s = magnitude r \/ int s = option_map Z.opp (magnitude r)).
Proof.
  unfold int. destruct (strip s) as [|c r].
  - exists EmptyString, EmptyString. auto.
  - destruct c as [[] [] [] [] [] [] [] []];
      first [ exists "+", r; split; [reflexivity | split; [now auto | left; reflexivity]]
            | exists "-", r; split; [reflexivity | split; [now auto | right; reflexivity]]
            | exists EmptyString; eexists; split;
              [reflexivity | split; [now auto | left; reflexivity]] ].
Qed.

Lemma strip_parts sign body n after :
  sign = EmptyString \/ sign = "+" \/ sign = "-" ->
  digit_groups body n ->
  all_chars is_space after = true ->
  lstrip ((sign ++ body) ++ after) = (sign ++ body) ++ after
  /\ rstrip ((sign ++ body) ++ after) = sign ++ body.
Proof.
  intros Hsign Hg Hafter.
  destruct (groups_last_digit _ _ Hg) as (front & l & Hbody & Hl).
  destruct (groups_first _ _ Hg) as (c & rest & Hfirst & Hc).
  split.
  - destruct Hsign as [-> | [-> | ->]]; [|reflexivity..].
    rewrite Hfirst. cbn. now rewrite (PyStrFacts.digit_not_space _ Hc).
  - rewrite (rstrip_app _ _ Hafter), Hbody, <- append_assoc.
    apply rstrip_last. now apply PyStrFacts.digit_not_space.
Qed.

Lemma match_parts sign body n :
  sign = EmptyString \/ sign = "+" \/ sign = "-" ->
  digit_groups body n ->
  match sign ++ body with
  | String "+" r => magnitude r
  | String "-" r => option_map Z.opp (magnitude r)
  | t => magnitude t
  end = magnitude body
  \/ match sign ++ body with
     | String "+" r => magnitude r
     | String "-" r => option_map Z.opp (magnitude r)
     | t => magnitude t
     end = option_map Z.opp (magnitude body).
Proof.
  intros Hsign Hg.
  destruct (groups_first _ _ Hg) as (c & rest & Hfirst & Hc).
  destruct Hsign as [-> | [-> | ->]]; [|now left | now right].
  left. rewrite Hfirst. cbn [append].
  destruct c as [[] [] [] [] [] [] [] []]; try discriminate; reflexivity.
Qed.

(** [int] reads a string exactly when the string is a numeral of the
    grammar. *)
Lemma int_literal_iff s : (exists b, int s = Some b) <-> int_literal s.
Proof.
  split.
  - intros [b Hb].
    destruct (int_parts s) as (sign & r & Hstrip & Hsign & Hint).
    assert (Hm : exists m, magnitude r = Some m).
    { destruct Hint as [E|E]; rewrite E in Hb.
      - eauto.
      - destruct (magnitude r); [eauto | discriminate]. }
    destruct Hm as [m Hm].
    destruct (magnitude_groups _ _ Hm) as (n & Hg & Hn).
    destruct (lstrip_cut s) as (before & Es & Hbefore).
    destruct (rstrip_cut (lstrip s)) as (after & El & Hafter).
    exists before, sign, r, after, n.
    repeat split; auto.
    fold (strip s) in El. rewrite Hstrip in El.
    rewrite Es at 1. rewrite El. now rewrite append_assoc.
  - intros (before & sign & body & after & n & -> & Hbefore & Hafter & Hsign & Hg & Hn).
    destruct (strip_parts sign body n after Hsign Hg Hafter) as [Hl Hr].
    assert (E : strip (before ++ sign ++ body ++ after) = sign ++ body).
    { unfold strip. rewrite (lstrip_spaces _ _ Hbefore), <- append_assoc.
      now rewrite Hl, Hr. }
    unfold int. rewrite E.
    destruct (groups_magnitude _ _ Hg Hn) as [m Hm].
    destruct (match_parts sign body n Hsign Hg) as [Hi|Hi]; rewrite Hi, Hm; cbn; eauto.
Qed.

(** A plain decimal integer within the limit is such a numeral. *)
Lemma plain_decimal_literal s :
  plain_decimal s = true ->
  (N.of_nat (String.length s) <= max_str_digits)%N ->
  int_literal s.
Proof.
  assert (Hdigits : forall r, r <> EmptyString -> all_chars is_digit r = true ->
                              digit_groups r (String.length r)).
  { induction r as [|c r IH]; [congruence|].
    intros _ H. cbn in H. apply andb_prop in H as [Hc H]. cbn [String.length].
    destruct r as [|c' r]; [now constructor|].
    apply groups_digit; [exact Hc|]. apply IH; [discriminate | exact H]. }
  assert (Hplain : forall sign r,
             sign = EmptyString \/ sign = "+" \/ sign = "-" ->
             negb (String.eqb r EmptyString) && all_chars is_digit r = true ->
             (N.of_nat (String.length (sign ++ r)) <= max_str_digits)%N ->
             int_literal (sign ++ r)).
  { intros sign r Hsign H Hlen. apply andb_prop in H as [Hne Hall].
    apply negb_true_iff, String.eqb_neq in Hne.
    exists EmptyString, sign, r, EmptyString, (String.length r).
    repeat split; auto.
    - cbn. now rewrite append_nil_r.
    - unfold max_str_digits in *.
      destruct Hsign as [-> | [-> | ->]]; cbn [append String.length] in Hlen; lia. }
  intros H Hlen.
  destruct s as [|c r]; [discriminate|].
  destruct c as [[] [] [] [] [] [] [] []];
    first [ apply (Hplain "+" r); [now auto | exact H | exact Hlen]
          | apply (Hplain "-" r); [now auto | exact H | exact Hlen]
          | apply (Hplain EmptyString); [now auto | exact H | exact Hlen] ].
Qed.

End Numerals.

(* ------------------------------------------------------------------ *)
(** ** A state that is not a state *)

Lemma third_field s :
  (2 <= PyStr.count "," s)%nat ->
  exists hue saturation field rest,
    PyStr.split "," s = hue :: saturation :: field :: rest.
Proof.
  intros H. pose proof (PyStrFacts.length_split "," s) as Hlen.
  destruct (PyStr.split "," s) as [|f0 [|f1 [|f2 rest]]]; cbn in Hlen; try lia.
  now exists f0, f1, f2, rest.
Qed.

Lemma no_third_field s :
  (PyStr.count "," s < 2)%nat -> nth_error (PyStr.split "," s) 2 = None.
Proof.
  intros H. pose proof (PyStrFacts.length_split "," s) as Hlen.
  apply nth_error_None. lia.
Qed.

(** C10, as stated, fails: the third field that lets a brightness command
    through is what [int()] reads, which is more than a decimal integer.  With
    the third field "7_5", and with " 75", the command returns and pushes a
    brightness of 100. *)
Lemma C10_counterexample :
  let underscored := hear "120,50,7_5" 200 "Home raise the office light brightness" in
  let spaced := hear "120,50, 75" 200 "Home raise the office light brightness" in
  plain_decimal "7_5" = false
  /\ result_of underscored = Returned init
  /\ network_calls (trace_of underscored)
     = [Get "http://localhost:8080/rest/items/hue_0210_00178828e0d0_1_color/state";
        Post "http://localhost:8080/rest/items/hue_0210_00178828e0d0_1_color" "120,50,100"]
  /\ plain_decimal " 75" = false
  /\ result_of spaced = Returned init
  /\ network_calls (trace_of spaced)
     = [Get "http://localhost:8080/rest/items/hue_0210_00178828e0d0_1_color/state";
        Post "http://localhost:8080/rest/items/hue_0210_00178828e0d0_1_color" "120,50,100"].
Proof. repeat split; reflexivity. Qed.

(** C10, amended: the fetched state is used as it comes.  For a resolved
    light, a colour command returns if and only if the fetched text holds at
    least two commas, and a brightness command if and only if, besides, its
    third field is a numeral as [int()] reads them: white space, an optional
    sign, digits with single underscores allowed between them, white space,
    and at most 4300 digits.  Every plain decimal integer of at most 4300
    characters is such a numeral.  With fewer than three fields (one field,
    as in "NULL") both commands raise [IndexError] after the fetch: nothing
    is pushed and nothing is said.  With a third field that is no such
    numeral, a brightness command raises [ValueError] in the same way. *)
Theorem C10_fetched_state_is_not_validated
    (W : Type) (requests : Requests W) (cfg : Config)
    (self : MyAssistant) (said : string) (w : W) (color : string) :
  let text := command_text said in
  let run :=
    process_event requests cfg self (ON_RECOGNIZING_SPEECH_FINISHED (Some said)) w in
  let state := fetched requests cfg color w in
  let third := nth 2 (PyStr.split "," state) EmptyString in
  let after_the_fetch :=
    [Print ("You said: " ++ said); StopConversation; Get (state_url cfg color)] in
  PyStr.startswith (PyStr.lower said) (custom_hotword cfg) = true ->
  resolves_color cfg text color ->
  (forall temp,
   resolves cfg text color temp ->
   single_light_direct text = true ->
   switch_word text = false ->
   color_word text <> None ->
   (result_of run = Returned self <-> (2 <= PyStr.count "," state)%nat)
   /\ ((PyStr.count "," state < 2)%nat ->
       result_of run = Raised IndexError /\ trace_of run = after_the_fetch))
  /\ (forall up,
        adjust_verb up text = true ->
        brightness_scope text = true ->
        (result_of run = Returned self <->
         (2 <= PyStr.count "," state)%nat /\ int_literal third)
        /\ ((PyStr.count "," state < 2)%nat ->
            result_of run = Raised IndexError /\ trace_of run = after_the_fetch)
        /\ ((2 <= PyStr.count "," state)%nat ->
            ~ int_literal third ->
            result_of run = Raised ValueError /\ trace_of run = after_the_fetch))
  /\ (forall field,
        plain_decimal field = true ->
        (N.of_nat (String.length field) <= PyStr.max_str_digits)%N ->
        int_literal field).
Proof.
  cbv zeta. intros Hhot Hrc.
  rewrite (process_event_hot _ _ _ _ _ Hhot), result_heard, trace_heard.
  split; [|split].
  - intros temp Hres Hsingle Hsw Hcw.
    destruct (color_word (command_text said)) as [hue|] eqn:Ecw; [clear Hcw|now destruct Hcw].
    rewrite (dispatch_specific_light _ _ _ _ Hsingle).
    rewrite (color_run _ _ _ _ _ _ _ Hres Hsw Ecw).
    destruct (le_lt_dec 2 (PyStr.count "," (fetched requests cfg color w))) as [Hge|Hlt].
    + destruct (third_field _ Hge) as (f0 & f1 & f2 & rest & Hsplit).
      rewrite Hsplit. cbn [nth_error].
      split; [split; [intros _; exact Hge | reflexivity] | intros Hlt; lia].
    + rewrite (no_third_field _ Hlt).
      split; [split; [discriminate | intros Hge; lia] | intros _; split; reflexivity].
  - intros up Hverb Hscope.
    rewrite (adjust_run _ _ _ _ _ _ Hverb Hscope Hrc).
    destruct (le_lt_dec 2 (PyStr.count "," (fetched requests cfg color w))) as [Hge|Hlt].
    + destruct (third_field _ Hge) as (f0 & f1 & f2 & rest & Hsplit).
      rewrite Hsplit. cbn [nth].
      destruct (PyStr.int f2) as [b|] eqn:Hint.
      * assert (Hlit : int_literal f2) by (apply int_literal_iff; now exists b).
        split; [split; [intros _; now split | reflexivity]|].
        split; [intros Hlt; lia | intros _ Hno; now destruct Hno].
      * assert (Hno : ~ int_literal f2).
        { intros Hlit. apply int_literal_iff in Hlit as [b Hb]. congruence. }
        split; [split; [discriminate | intros [_ Hlit]; now destruct Hno]|].
        split; [intros Hlt; lia | intros _ _; split; reflexivity].
    + pose proof (PyStrFacts.length_split "," (fetched requests cfg color w)) as Hlen.
      destruct (PyStr.split "," (fetched requests cfg color w)) as [|f0 [|f1 [|f2 rest]]];
        cbn in Hlen; try lia;
        (split; [split; [discriminate | intros [Hge _]; lia]|];
         split; [intros _; split; reflexivity | intros Hge; lia]).
  - intros field. apply plain_decimal_literal.
Qed.

Lemma C10_witness :
  let color_run := hear "NULL" 200 "Home turn the office light red" in
  let brightness_run := hear "120,50,bright" 200 "Home reduce the office light brightness" in
  let good_run := hear "120,50, +7_5 " 200 "Home reduce the office light brightness" in
  (result_of color_run = Raised IndexError
   /\ trace_of color_run
      = [Print "You said: Home turn the office light red"; StopConversation;
         Get (state_url shipped "hue_0210_00178828e0d0_1_color")])
  /\ (result_of brightness_run = Raised ValueError
      /\ trace_of brightness_run
         = [Print "You said: Home reduce the office light brightness"; StopConversation;
            Get (state_url shipped "hue_0210_00178828e0d0_1_color")])
  /\ result_of good_run = Returned init.
Proof.
  cbv zeta. split; [|split].
  - pose proof (C10_fetched_state_is_not_validated unit (canned "NULL" 200)
                  shipped init "Home turn the office light red" tt
                  "hue_0210_00178828e0d0_1_color") as H.
    cbv zeta in H. specialize (H eq_refl).
    destruct H as [H _].
    + exists 0%nat. split; reflexivity.
    + destruct (H "hue_0210_00178828e0d0_1_color_temperature") as [_ Hfew].
      * exists 0%nat. repeat split; reflexivity.
      * reflexivity.
      * reflexivity.
      * discriminate.
      * apply Hfew. cbn. lia.
  - pose proof (C10_fetched_state_is_not_validated unit (canned "120,50,bright" 200)
                  shipped init "Home reduce the office light brightness" tt
                  "hue_0210_00178828e0d0_1_color") as H.
    cbv zeta in H. specialize (H eq_refl).
    destruct H as [_ [H _]].
    + exists 0%nat. split; reflexivity.
    + destruct (H false eq_refl eq_refl) as [_ [_ Hvalue]].
      apply Hvalue; [cbn; lia|].
      intros Hlit. apply int_literal_iff in Hlit as [b Hb]. discriminate Hb.
  - pose proof (C10_fetched_state_is_not_validated unit (canned "120,50, +7_5 " 200)
                  shipped init "Home reduce the office light brightness" tt
                  "hue_0210_00178828e0d0_1_color") as H.
    cbv zeta in H. specialize (H eq_refl).
    destruct H as [_ [H _]].
    + exists 0%nat. split; reflexivity.
    + destruct (H false eq_refl eq_refl) as [[_ Hgood] _].
      apply Hgood. split; [cbn; lia|].
      exists " ", "+", "7_5", " ", 2%nat.
      repeat split; auto.
      * apply groups_underscore; [reflexivity|]. now apply groups_last.
      * unfold PyStr.max_str_digits. lia.
Defined.

(* ------------------------------------------------------------------ *)
(** ** Substrings *)

Lemma prefix_iff (p s : string) :
  String.prefix p s = true <-> exists rest, s = p ++ rest.
Proof.
  revert s. induction p as [|c p IH]; intros s; cbn.
  - split; [intros _; now exists s | intros _; now destruct s].
  - destruct s as [|d s]; cbn.
    + split; [discriminate | intros [rest H]; discriminate].
    + destruct (ascii_dec c d) as [->|Hne].
      * rewrite IH. split; intros [rest H]; exists rest; congruence.
      * split; [discriminate | intros [rest H]; congruence].
Qed.

Lemma contains_iff (sub s : string) :
  PyStr.contains sub s = true <-> exists before after, s = before ++ sub ++ after.
Proof.
  induction s as [|c s IH]; cbn [PyStr.contains].
  - rewrite orb_false_r, prefix_iff. split.
    + intros [rest H]. now exists EmptyString, rest.
    + intros (before & after & H). destruct before; [now exists after | discriminate].
  - rewrite orb_true_iff, prefix_iff, IH. split.
    + intros [[rest H] | (before & after & H)].
      * now exists EmptyString, rest.
      * exists (String c before), after. cbn. now rewrite H.
    + intros (before & after & H). destruct before as [|d before]; cbn in H.
      * left. now exists after.
      * right. injection H as _ H. now exists before, after.
Qed.

Lemma contains_trans (a b c : string) :
  PyStr.contains a b = true -> PyStr.contains b c = true -> PyStr.contains a c = true.
Proof.
  rewrite !contains_iff.
  intros (u & v & ->) (x & y & ->).
  exists (x ++ u), (v ++ y). now rewrite !append_assoc.
Qed.

(** X1: [sub in text] holds exactly when the text is some string, then
    [sub], then some string; and a substring of a substring is a substring. *)
Theorem X1_contains_is_substring (sub s : string) :
  (PyStr.contains sub s = true <-> exists before after, s = before ++ sub ++ after)
  /\ (forall text,
        PyStr.contains sub s = true -> PyStr.contains s text = true ->
        PyStr.contains sub text = true).
Proof.
  split; [apply contains_iff | intros text; apply contains_trans].
Qed.

(* ------------------------------------------------------------------ *)
(** ** The position of the first match *)

Lemma any_idx_from_some start iterable i :
  any_idx_from start iterable = Some i <->
  (start <= i)%nat
  /\ nth_error iterable (i - start) = Some true
  /\ forall j, (j < i - start)%nat -> nth_error iterable j = Some false.
Proof.
  revert start. induction iterable as [|element rest IH]; intros start; cbn.
  - split; [discriminate|]. intros (_ & H & _). now destruct (i - start)%nat.
  - destruct element.
    + split.
      * intros [= <-]. rewrite Nat.sub_diag. cbn. repeat split; auto. intros j Hj. lia.
      * intros (Hle & Hnth & Hbefore).
        destruct (i - start)%nat as [|k] eqn:E; [f_equal; lia|].
        specialize (Hbefore 0%nat (Nat.lt_0_succ _)). discriminate.
    + rewrite IH. split.
      * intros (Hle & Hnth & Hbefore).
        replace (i - start)%nat with (S (i - (start + 1)))%nat by lia.
        cbn. repeat split; [lia | exact Hnth |].
        intros [|j] Hj; cbn; [reflexivity | apply Hbefore; lia].
      * intros (Hle & Hnth & Hbefore).
        destruct (i - start)%nat as [|k] eqn:E; [discriminate|].
        cbn in Hnth. replace (i - (start + 1))%nat with k by lia.
        repeat split; [lia | exact Hnth |].
        intros j Hj. apply (Hbefore (S j)). lia.
Qed.

Lemma any_idx_from_none_iff start iterable :
  any_idx_from start iterable = None <-> forall element, In element iterable -> element = false.
Proof.
  split; [|apply any_idx_from_none].
  revert start. induction iterable as [|element rest IH]; intros start; cbn.
  - intros _ e [].
  - destruct element; [discriminate|].
    intros H e [<-|He]; [reflexivity | now apply (IH _ H)].
Qed.

(** X2: [any_idx] returns the position of the first true element: the
    element there is true and every element before it is false.  It returns
    [None] exactly when no element is true, which includes the empty
    iterable. *)
Theorem X2_any_idx_first_true (iterable : list bool) (i : nat) :
  (any_idx iterable = Some i <->
   nth_error iterable i = Some true
   /\ forall j, (j < i)%nat -> nth_error iterable j = Some false)
  /\ (any_idx iterable = None <-> forall element, In element iterable -> element = false)
  /\ (any_idx iterable = Some i -> (i < List.length iterable)%nat).
Proof.
  unfold any_idx. split; [|split].
  - rewrite any_idx_from_some, Nat.sub_0_r. split; [tauto|].
    intros [H1 H2]. repeat split; auto. lia.
  - apply any_idx_from_none_iff.
  - rewrite any_idx_from_some, Nat.sub_0_r. intros (_ & H & _).
    apply nth_error_Some. congruence.
Qed.

(** The position a text resolves to is that of the first configured name
    that occurs in it. *)
Lemma idx_in_some names text i :
  idx_in names text = Some i <->
  (exists name, nth_error names i = Some name /\ PyStr.contains name text = true)
  /\ forall j name, (j < i)%nat -> nth_error names j = Some name ->
                    PyStr.contains name text = false.
Proof.
  unfold idx_in, any_idx. rewrite any_idx_from_some, Nat.sub_0_r. split.
  - intros (_ & Hnth & Hbefore). split.
    + rewrite nth_error_map in Hnth.
      destruct (nth_error names i) as [name|]; [|discriminate].
      exists name. split; [reflexivity | now injection Hnth].
    + intros j name Hj Hname. specialize (Hbefore j Hj).
      rewrite nth_error_map, Hname in Hbefore. now injection Hbefore.
  - intros [(name & Hname & Hc) Hbefore]. repeat split; [lia | |].
    + now rewrite nth_error_map, Hname, <- Hc.
    + intros j Hj. rewrite nth_error_map.
      destruct (nth_error names j) as [n|] eqn:E.
      * cbn. f_equal. now apply (Hbefore j).
      * apply nth_error_None in E.
        assert (i < List.length names)%nat by (apply nth_error_Some; congruence). lia.
Qed.

Lemma idx_in_found names text name :
  In name names -> PyStr.contains name text = true ->
  exists i, idx_in names text = Some i /\ (i < List.length names)%nat.
Proof.
  intros Hin Hc.
  destruct (idx_in names text) as [i|] eqn:E.
  - exists i. split; [reflexivity|].
    apply idx_in_some in E as [(n & Hn & _) _]. apply nth_error_Some. congruence.
  - unfold idx_in, any_idx in E.
    rewrite any_idx_from_none_iff in E.
    specialize (E (PyStr.contains name text)).
    rewrite Hc in E. discriminate E. apply in_map_iff. now exists name.
Qed.

(** X3: with parallel light arrays, a text that contains a configured name
    resolves to a device: the items at the position of the first configured
    name that occurs in the text, whichever name that is.  No lookup in the
    arrays fails. *)
Theorem X3_first_configured_name_resolves
    (cfg : Config) (text name : string) :
  well_formed cfg ->
  In name (lights_ids cfg) ->
  PyStr.contains name text = true ->
  exists idx first color temp,
    idx_in (lights_ids cfg) text = Some idx
    /\ nth_error (lights_ids cfg) idx = Some first
    /\ PyStr.contains first text = true
    /\ (forall j earlier, (j < idx)%nat -> nth_error (lights_ids cfg) j = Some earlier ->
                          PyStr.contains earlier text = false)
    /\ nth_error (light_colors cfg) idx = Some color
    /\ nth_error (light_color_temps cfg) idx = Some temp
    /\ resolves cfg text color temp.
Proof.
  intros [Hcolors Htemps] Hin Hc.
  destruct (idx_in_found _ _ _ Hin Hc) as (idx & Hidx & Hlt).
  pose proof (proj1 (idx_in_some _ _ _) Hidx) as [(first & Hfirst & Hfc) Hbefore].
  destruct (nth_error (light_colors cfg) idx) as [color|] eqn:Ec;
    [|apply nth_error_None in Ec; lia].
  destruct (nth_error (light_color_temps cfg) idx) as [temp|] eqn:Et;
    [|apply nth_error_None in Et; lia].
  exists idx, first, color, temp. repeat split; auto.
  exists idx. auto.
Qed.

Lemma X3_witness :
  exists idx first color temp,
    idx_in (lights_ids shipped) "home turn on the office light " = Some idx
    /\ nth_error (lights_ids shipped) idx = Some first
    /\ PyStr.contains first "home turn on the office light " = true
    /\ (forall j earlier, (j < idx)%nat -> nth_error (lights_ids shipped) j = Some earlier ->
                          PyStr.contains earlier "home turn on the office light " = false)
    /\ nth_error (light_colors shipped) idx = Some color
    /\ nth_error (light_color_temps shipped) idx = Some temp
    /\ resolves shipped "home turn on the office light " color temp.
Proof.
  apply (X3_first_configured_name_resolves shipped "home turn on the office light " "office").
  - split; reflexivity.
  - left. reflexivity.
  - reflexivity.
Defined.

(** X4: a configured name that contains an earlier configured name is never
    resolved: every text that contains it contains the earlier name as well,
    and the earlier position wins. *)
Theorem X4_longer_name_is_shadowed
    (names : list string) (i j : nat) (short long text : string) :
  (i < j)%nat ->
  nth_error names i = Some short ->
  nth_error names j = Some long ->
  PyStr.contains short long = true ->
  idx_in names text <> Some j.
Proof.
  intros Hij Hshort Hlong Hsub Hres.
  apply idx_in_some in Hres as [(name & Hname & Hc) Hbefore].
  rewrite Hlong in Hname. injection Hname as <-.
  pose proof (Hbefore i short Hij Hshort) as Hno.
  rewrite (contains_trans _ _ _ Hsub Hc) in Hno. discriminate.
Qed.

Lemma X4_witness :
  idx_in ["bed"; "bedroom"] "home turn on the bedroom light " = Some 0%nat
  /\ idx_in ["bed"; "bedroom"] "home turn on the bedroom light " <> Some 1%nat.
Proof.
  split; [reflexivity|].
  apply (X4_longer_name_is_shadowed ["bed"; "bedroom"] 0 1 "bed" "bedroom"
           "home turn on the bedroom light ");
    [repeat constructor | reflexivity..].
Defined.

(* ------------------------------------------------------------------ *)
(** ** Every way out of the dispatch *)

Section Shapes_of_dispatch.

Context {W : Type}.
Variable requests : Requests W.
Variable cfg : Config.

#[local] Arguments String.append : simpl never.
#[local] Arguments item_url : simpl never.
#[local] Arguments PyStr.contains : simpl never.
#[local] Arguments PyStr.str : simpl never.

Lemma resolves_resolves_color text color temp :
  resolves cfg text color temp -> resolves_color cfg text color.
Proof. intros (idx & Hidx & Hc & _). exists idx. auto. Qed.

Lemma adjust_shape up text w :
  adjust_verb up text = true ->
  shape requests cfg text w (dispatch requests cfg text w).
Proof.
  intros Hv.
  destruct (brightness_scope text) eqn:Hb.
  - destruct (idx_in (lights_ids cfg) text) as [idx|] eqn:Hidx.
    2:{ rewrite (adjust_unknown _ _ _ _ _ Hv Hb Hidx). constructor. now right. }
    destruct (nth_error (light_colors cfg) idx) as [color|] eqn:Hc.
    2:{ rewrite (adjust_dispatch _ _ _ _ _ Hv).
        unfold brightness_scope in Hb.
        destruct up; unfold increase_group, decrease_group, bind, getitem, raise;
          rewrite Hb, Hidx, Hc; apply (shape_lookup _ _ _ _ idx); auto. }
    assert (Hr : resolves_color cfg text color) by (exists idx; auto).
    rewrite (adjust_run _ _ _ _ _ _ Hv Hb Hr).
    destruct (PyStr.split "," (fetched requests cfg color w)) as [|f0 [|f1 [|f2 rest]]];
      try (apply shape_bad_state; auto).
    destruct (PyStr.int f2); [now apply shape_push | apply shape_bad_state; auto].
  - rewrite (adjust_dispatch _ _ _ _ _ Hv).
    unfold brightness_scope in Hb.
    destruct up; unfold increase_group, decrease_group; rewrite Hb;
      constructor; now left.
Qed.

Lemma dispatch_shape text w :
  shape requests cfg text w (dispatch requests cfg text w).
Proof.
  destruct (direct_verb text) eqn:Hd.
  - destruct (all_lights text) eqn:Hall.
    + unfold dispatch, direct_state_group.
      unfold direct_verb in Hd. unfold all_lights in Hall. rewrite Hd, Hall.
      destruct (PyStr.contains " on " text); [apply shape_group|].
      destruct (PyStr.contains " off " text); [apply shape_group|].
      constructor. now left.
    + destruct (PyStr.contains " light " text) eqn:Hl.
      * assert (Hs : single_light_direct text = true)
          by (unfold single_light_direct; now rewrite Hd, Hall, Hl).
        rewrite (dispatch_specific_light _ _ _ _ Hs).
        destruct (idx_in (lights_ids cfg) text) as [idx|] eqn:Hidx.
        2:{ rewrite (specific_light_unknown _ _ _ _ Hidx). constructor. now right. }
        destruct (nth_error (light_colors cfg) idx) as [color|] eqn:Hc.
        2:{ unfold specific_light, bind, getitem, raise. rewrite Hidx, Hc.
            apply (shape_lookup _ _ _ _ idx); auto. }
        destruct (nth_error (light_color_temps cfg) idx) as [temp|] eqn:Ht.
        2:{ unfold specific_light, bind, getitem, raise, ret. rewrite Hidx, Hc, Ht.
            apply (shape_lookup _ _ _ _ idx); auto. }
        assert (Hr : resolves cfg text color temp) by (exists idx; auto).
        pose proof (resolves_resolves_color _ _ _ Hr) as Hrc.
        destruct (switch_word text) eqn:Hsw.
        { rewrite (switch_run _ _ _ _ _ _ Hr Hsw). now apply shape_push. }
        destruct (color_word text) as [hue|] eqn:Hcw.
        { rewrite (color_run _ _ _ _ _ _ _ Hr Hsw Hcw).
          destruct (nth_error (PyStr.split "," (fetched requests cfg color w)) 2);
            [now apply shape_push | apply shape_bad_state; auto]. }
        destruct (temperature_word text) as [level|] eqn:Htw.
        { rewrite (temperature_run _ _ _ _ _ _ _ Hr Hsw Hcw Htw). now apply shape_push. }
        rewrite (unrecognized_run _ _ _ _ _ _ Hr Hsw Hcw Htw).
        now apply shape_unknown_action.
      * unfold dispatch, direct_state_group.
        pose proof Hd as Hd'.
        unfold direct_verb in Hd. unfold all_lights in Hall. rewrite Hd, Hall, Hl.
        destruct (PyStr.contains " system " text) eqn:Hsys; [|constructor; now left].
        destruct (PyStr.contains " off " text) eqn:Hoff.
        -- now apply shape_power_off.
        -- apply shape_silent.
  - destruct (any_in [" increase "; " raise "] text) eqn:Hi.
    + apply (adjust_shape true). cbn. unfold increase_verb. now rewrite Hd, Hi.
    + destruct (any_in [" decrease "; " reduce "] text) eqn:Hdec.
      * apply (adjust_shape false). cbn. unfold decrease_verb. now rewrite Hd, Hi, Hdec.
      * unfold dispatch. pose proof Hd as Hd'. unfold direct_verb in Hd.
        rewrite Hd, Hi, Hdec.
        destruct (any_in [" reboot "; " restart "] text) eqn:Hre; [|constructor; now left].
        unfold reboot_group.
        destruct (PyStr.contains " system " text) eqn:Hsys.
        -- now apply shape_reboot.
        -- apply shape_silent.
Qed.

End Shapes_of_dispatch.

(* ------------------------------------------------------------------ *)
(** ** What a recognized text can cause *)

Section Consequences.

Context {W : Type}.
Variable requests : Requests W.
Variable cfg : Config.

Lemma send_report_kinds item state r :
  Forall (fun e => is_say e || negb (audible e) = true) (send_report cfg item state r).
Proof.
  unfold send_report.
  destruct (truthy (debug cfg)); cbn;
    destruct ((status_code r =? 400) || (status_code r =? 404)); repeat constructor.
Qed.

Lemma calls_send_report item state r :
  filter is_call (send_report cfg item state r) = [].
Proof.
  unfold send_report.
  destruct (truthy (debug cfg)); cbn;
    destruct ((status_code r =? 400) || (status_code r =? 404)); reflexivity.
Qed.

Lemma in_filter_nil (keep : effect -> bool) (t : list effect) e :
  filter keep t = [] -> keep e = true -> ~ In e t.
Proof.
  intros Hnil Hkeep Hin.
  assert (H : In e (filter keep t)) by (apply filter_In; auto).
  now rewrite Hnil in H.
Qed.

(** A recognized text: the echo alone, or the echo and the end of the
    conversation followed by one of the shapes of the dispatch. *)
Lemma recognized_run self said w :
  let run :=
    process_event requests cfg self (ON_RECOGNIZING_SPEECH_FINISHED (Some said)) w in
  run = (Returned self, w, [Print ("You said: " ++ said)])
  \/ exists dispatch_run,
       shape requests cfg (command_text said) w dispatch_run
       /\ run = heard self said dispatch_run.
Proof.
  cbv zeta.
  destruct (PyStr.startswith (PyStr.lower said) (custom_hotword cfg)) eqn:Hhot.
  - right. exists (dispatch requests cfg (command_text said) w).
    split; [apply dispatch_shape | now apply process_event_hot].
  - left. now apply process_event_cold.
Qed.

End Consequences.

(** X5: a recognized text runs a shell command only if it contains the
    padded word "system": the shutdown for a direct-state verb with "off",
    the reboot for a reboot verb in a text that holds no verb of the three
    groups tested before it (direct-state, increase, decrease).
    Such a run says one sentence first, makes no request and leaves the
    backend as it was. *)
Theorem X5_shell_commands_need_system
    (W : Type) (requests : Requests W) (cfg : Config)
    (self : MyAssistant) (said : string) (w : W) (command : string) :
  let text := command_text said in
  let run :=
    process_event requests cfg self (ON_RECOGNIZING_SPEECH_FINISHED (Some said)) w in
  In (Call command) (trace_of run) ->
  PyStr.contains " system " text = true
  /\ (command = "sudo shutdown now"
      /\ direct_verb text = true /\ PyStr.contains " off " text = true
      /\ run = (Returned self, w,
                [Print ("You said: " ++ said); StopConversation;
                 Say "Powering off the system. Good bye!"; Call "sudo shutdown now"])
      \/ command = "sudo reboot"
         /\ direct_verb text = false
         /\ any_in [" increase "; " raise "] text = false
         /\ any_in [" decrease "; " reduce "] text = false
         /\ any_in [" reboot "; " restart "] text = true
         /\ run = (Returned self, w,
                   [Print ("You said: " ++ said); StopConversation;
                    Say "Rebooting the system. Hold on!"; Call "sudo reboot"])).
Proof.
  cbv zeta. intros Hin.
  destruct (recognized_run requests cfg self said w) as [E | (r & Hshape & E)];
    rewrite E in Hin |- *.
  - destruct Hin as [H|[]]. discriminate.
  - rewrite trace_heard in Hin. destruct Hin as [H|[H|Hin]]; try discriminate.
    inversion Hshape
      as [m Hm Er | Er | Hd Hsys Hoff Er | Hd Hinc Hdec Hre Hsys Er | state Er | idx Hidx Hnone Er
          | color item state Hr Er | color e Hr He Er | color Hr Er];
      subst r; try rewrite <- Er in Hin; cbn in Hin.
    + destruct Hin as [Hc|[]]. discriminate.
    + destruct Hin.
    + destruct Hin as [Hc|[Hc|[]]]; try discriminate. injection Hc as <-.
      split; [assumption|]. left. repeat split; assumption.
    + destruct Hin as [Hc|[Hc|[]]]; try discriminate. injection Hc as <-.
      split; [assumption|]. right. repeat split; assumption.
    + exfalso. rewrite openhab_send_run in Hin. cbn in Hin.
      destruct Hin as [Hc|Hin]; [discriminate|].
      revert Hin. apply in_filter_nil with (keep := is_call);
        [apply calls_send_report | reflexivity].
    + destruct Hin.
    + exfalso. unfold fetch_then_send in Hin. cbn in Hin.
      destruct Hin as [Hc|[Hc|Hin]]; try discriminate.
      revert Hin. apply in_filter_nil with (keep := is_call);
        [apply calls_send_report | reflexivity].
    + destruct Hin as [Hc|[]]. discriminate.
    + destruct Hin as [Hc|[Hc|[]]]; discriminate.
Qed.

Lemma X5_witness :
  let said := "Home please turn off the system" in
  PyStr.contains " system " (command_text said) = true
  /\ hear "NULL" 200 said
     = (Returned init, tt,
        [Print ("You said: " ++ said); StopConversation;
         Say "Powering off the system. Good bye!"; Call "sudo shutdown now"]).
Proof.
  cbv zeta.
  destruct (X5_shell_commands_need_system unit (canned "NULL" 200) shipped init
              "Home please turn off the system" tt "sudo shutdown now")
    as [Hsys [(_ & _ & _ & Hrun) | (Hcmd & _)]].
  - vm_compute. auto.
  - split; [exact Hsys | exact Hrun].
  - discriminate Hcmd.
Defined.

(** X6: whatever was recognized, the handler makes at most one fetch and at
    most one push, the fetch first; it says at most one sentence and runs at
    most one shell command. *)
Theorem X6_at_most_one_fetch_and_one_push
    (W : Type) (requests : Requests W) (cfg : Config)
    (self : MyAssistant) (said : string) (w : W) :
  let run :=
    process_event requests cfg self (ON_RECOGNIZING_SPEECH_FINISHED (Some said)) w in
  (network_calls (trace_of run) = []
   \/ (exists url, network_calls (trace_of run) = [Get url])
   \/ (exists url data, network_calls (trace_of run) = [Post url data])
   \/ (exists from url data, network_calls (trace_of run) = [Get from; Post url data]))
  /\ (List.length (filter is_say (trace_of run)) <= 1)%nat
  /\ (List.length (filter is_call (trace_of run)) <= 1)%nat.
Proof.
  cbv zeta.
  destruct (recognized_run requests cfg self said w) as [E | (r & Hshape & E)];
    rewrite E.
  - cbn. auto.
  - rewrite trace_heard.
    change (network_calls (Print ("You said: " ++ said) :: StopConversation :: trace_of r))
      with (network_calls (trace_of r)).
    change (filter is_say (Print ("You said: " ++ said) :: StopConversation :: trace_of r))
      with (filter is_say (trace_of r)).
    change (filter is_call (Print ("You said: " ++ said) :: StopConversation :: trace_of r))
      with (filter is_call (trace_of r)).
    inversion Hshape
      as [m Hm Er | Er | Hd Hsys Hoff Er | Hd Hinc Hdec Hre Hsys Er | state Er | idx Hidx Hnone Er
          | color item state Hr Er | color e Hr He Er | color Hr Er];
      subst r; try rewrite <- Er; try (cbn; now auto 6).
    + rewrite openhab_send_run. unfold trace_of, network_calls.
      cbn [snd filter is_network is_say is_call].
      rewrite (network_calls_send_report cfg), says_send_report, calls_send_report.
      cbn. split; [|auto]. right. right. left. eauto.
    + unfold fetch_then_send, trace_of, network_calls.
      cbn [snd filter is_network is_say is_call].
      rewrite (network_calls_send_report cfg), says_send_report, calls_send_report.
      cbn. split; [|auto]. right. right. right. eauto.
    + cbn. split; [|auto]. right. left. eauto.
    + cbn. split; [|auto]. right. left. eauto.
Qed.



(* ------------------------------------------------------------------ *)
(** ** Switching, and the commands that do nothing *)

(** X8: a direct-state command that names all the lights is one push to the
    group of all lights, "ON" when the text holds the padded word "on" and
    otherwise "OFF" when it holds "off"; no state is fetched, and a name of
    a single light in the text plays no part.  With neither word the command
    is reported as not recognized and nothing is sent. *)
Theorem X8_all_lights_one_push
    (W : Type) (requests : Requests W) (cfg : Config)
    (self : MyAssistant) (said : string) (w : W) :
  let text := command_text said in
  let run :=
    process_event requests cfg self (ON_RECOGNIZING_SPEECH_FINISHED (Some said)) w in
  PyStr.startswith (PyStr.lower said) (custom_hotword cfg) = true ->
  direct_verb text = true ->
  all_lights text = true ->
  result_of run = Returned self
  /\ (switch_word text = true ->
      network_calls (trace_of run)
      = [Post (item_url cfg (all_lights_group cfg))
           (if PyStr.contains " on " text then "ON" else "OFF")])
  /\ (switch_word text = false ->
      run = (Returned self, w,
             [Print ("You said: " ++ said); StopConversation;
              Say not_recognized_message])).
Proof.
  cbv zeta. intros Hhot Hd Hall.
  rewrite (process_event_hot _ _ _ _ _ Hhot), result_heard, network_calls_heard.
  unfold dispatch, direct_state_group, switch_word.
  unfold direct_verb in Hd. unfold all_lights in Hall. rewrite Hd, Hall.
  destruct (PyStr.contains " on " (command_text said)).
  - rewrite openhab_send_run. unfold result_of, trace_of, network_calls.
    cbn [fst snd filter is_network]. rewrite (network_calls_send_report cfg).
    cbn [orb]. split; [reflexivity | split; [reflexivity | discriminate]].
  - destruct (PyStr.contains " off " (command_text said)).
    + rewrite openhab_send_run. unfold result_of, trace_of, network_calls.
      cbn [fst snd filter is_network]. rewrite (network_calls_send_report cfg).
      cbn [orb]. split; [reflexivity | split; [reflexivity | discriminate]].
    + cbn [orb]. split; [reflexivity | split; [discriminate | reflexivity]].
Qed.

Lemma X8_witness :
  let said := "Home turn off all the office lights" in
  let run := hear "NULL" 200 said in
  result_of run = Returned init
  /\ network_calls (trace_of run)
     = [Post (item_url shipped (all_lights_group shipped)) "OFF"].
Proof.
  cbv zeta.
  destruct (X8_all_lights_one_push unit (canned "NULL" 200) shipped init
              "Home turn off all the office lights" tt eq_refl eq_refl eq_refl)
    as (Hres & Hpush & _).
  split; [exact Hres | exact (Hpush eq_refl)].
Defined.

(** X9: a direct-state command for a resolved light whose text holds the
    padded word "on" or "off" fetches the state of the light's colour item
    and pushes "ON" or "OFF" to that item; "on" wins over "off", and both win
    over every colour and temperature word in the text. *)
Theorem X9_switching_one_light
    (W : Type) (requests : Requests W) (cfg : Config)
    (self : MyAssistant) (said : string) (w : W) (color temp : string) :
  let text := command_text said in
  let run :=
    process_event requests cfg self (ON_RECOGNIZING_SPEECH_FINISHED (Some said)) w in
  PyStr.startswith (PyStr.lower said) (custom_hotword cfg) = true ->
  single_light_direct text = true ->
  resolves cfg text color temp ->
  switch_word text = true ->
  result_of run = Returned self
  /\ network_calls (trace_of run)
     = [Get (state_url cfg color);
        Post (item_url cfg color) (if PyStr.contains " on " text then "ON" else "OFF")].
Proof.
  cbv zeta. intros Hhot Hsingle Hres Hsw.
  rewrite (process_event_hot _ _ _ _ _ Hhot), result_heard, network_calls_heard.
  rewrite (dispatch_specific_light _ _ _ _ Hsingle).
  rewrite (switch_run _ _ _ _ _ _ Hres Hsw).
  rewrite network_calls_fetch_then_send. split; reflexivity.
Qed.

Lemma X9_witness :
  let said := "Home turn the office light red and then on" in
  let run := hear "NULL" 200 said in
  result_of run = Returned init
  /\ network_calls (trace_of run)
     = [Get (state_url shipped "hue_0210_00178828e0d0_1_color");
        Post (item_url shipped "hue_0210_00178828e0d0_1_color")
          (if PyStr.contains " on " (command_text said) then "ON" else "OFF")].
Proof.
  apply (X9_switching_one_light unit (canned "NULL" 200) shipped init
           "Home turn the office light red and then on" tt
           "hue_0210_00178828e0d0_1_color"
           "hue_0210_00178828e0d0_1_color_temperature");
    try reflexivity.
  exists 0%nat. repeat split; reflexivity.
Defined.

(** X10: two kinds of command are dropped without a word.  A direct-state
    command for the system without the padded word "off", and a reboot
    command without the padded word "system", end the assistant's
    conversation and then do nothing: nothing is said, sent or run. *)
Theorem X10_commands_dropped_in_silence
    (W : Type) (requests : Requests W) (cfg : Config)
    (self : MyAssistant) (said : string) (w : W) :
  let text := command_text said in
  let run :=
    process_event requests cfg self (ON_RECOGNIZING_SPEECH_FINISHED (Some said)) w in
  PyStr.startswith (PyStr.lower said) (custom_hotword cfg) = true ->
  (direct_verb text = true /\ all_lights text = false
   /\ PyStr.contains " light " text = false
   /\ PyStr.contains " system " text = true
   /\ PyStr.contains " off " text = false)
  \/ (direct_verb text = false
      /\ any_in [" increase "; " raise "] text = false
      /\ any_in [" decrease "; " reduce "] text = false
      /\ any_in [" reboot "; " restart "] text = true
      /\ PyStr.contains " system " text = false) ->
  run = (Returned self, w, [Print ("You said: " ++ said); StopConversation]).
Proof.
  cbv zeta. intros Hhot Hcase.
  rewrite (process_event_hot _ _ _ _ _ Hhot).
  unfold dispatch, direct_state_group, reboot_group.
  destruct Hcase as [(Hd & Hall & Hl & Hsys & Hoff) | (Hd & Hi & Hdec & Hre & Hsys)].
  - unfold direct_verb in Hd. unfold all_lights in Hall.
    now rewrite Hd, Hall, Hl, Hsys, Hoff.
  - unfold direct_verb in Hd. now rewrite Hd, Hi, Hdec, Hre, Hsys.
Qed.

Lemma X10_witness :
  hear "NULL" 200 "Home restart the light"
  = (Returned init, tt,
     [Print ("You said: " ++ "Home restart the light"); StopConversation]).
Proof.
  apply (X10_commands_dropped_in_silence unit (canned "NULL" 200) shipped init
           "Home restart the light" tt eq_refl).
  right. repeat split; reflexivity.
Defined.

(* ------------------------------------------------------------------ *)
(** ** The debug flag *)

Section Debug.

Context {W : Type}.
Variable requests : Requests W.
Variable cfg : Config.
Variable d : Z.

Lemma alike_refl A (m : M W A) : alike m m.
Proof. intros w. auto. Qed.

Lemma alike_bind A B (m m' : M W A) (k k' : A -> M W B) :
  alike m m' -> (forall a, alike (k a) (k' a)) -> alike (bind m k) (bind m' k').
Proof.
  intros Hm Hk w. specialize (Hm w).
  unfold bind, result_of, world_of, trace_of in *.
  destruct (m w) as [[[a|e] w1] t1], (m' w) as [[[a'|e'] w1'] t1'];
    cbn [fst snd] in *; destruct Hm as (Hr & Hw & Ht); try discriminate Hr.
  - injection Hr as <-. subst w1'.
    specialize (Hk a w1). unfold result_of, world_of, trace_of in Hk.
    destruct (k a w1) as [[r2 w2] t2], (k' a w1) as [[r2' w2'] t2'].
    cbn [fst snd] in *. destruct Hk as (Hr2 & Hw2 & Ht2).
    rewrite !filter_app. repeat split; congruence.
  - injection Hr as ->. auto.
Qed.

Lemma alike_debug_print line line' :
  alike (W := W) (debug_print cfg line) (debug_print (set_debug d cfg) line').
Proof.
  intros w. unfold debug_print, print, emit, ret. cbn [debug set_debug].
  destruct (truthy (debug cfg)), (truthy d); repeat split.
Qed.

Ltac alike_step :=
  first
    [ lazymatch goal with |- alike ?m ?m' => constr_eq m m' end; apply alike_refl
    | apply alike_debug_print
    | apply alike_bind; [|intros ?]
    | match goal with
      | |- alike (if ?b then _ else _) _ => destruct b
      | |- alike (match ?x with _ => _ end) _ => destruct x
      end ].

Lemma alike_openhab_send item state :
  alike (openhab_send requests cfg item state)
        (openhab_send requests (set_debug d cfg) item state).
Proof.
  unfold openhab_send, item_url. cbn [openhab_ip openhab_port set_debug].
  repeat alike_step.
Qed.

Lemma alike_dispatch text :
  alike (dispatch requests cfg text) (dispatch requests (set_debug d cfg) text).
Proof.
  pose proof alike_openhab_send as Hsend.
  unfold dispatch, direct_state_group, specific_light, increase_group, decrease_group,
    reboot_group, set_color, openhab_get_state, item_url.
  cbn [openhab_ip openhab_port all_lights_group light_colors light_color_temps
       lights_ids set_debug].
  repeat first [ apply Hsend | alike_step ].
Qed.

End Debug.

(** X11: the debug flag changes what is printed and nothing else.  For the
    same recognized text and the same state of the backend, two
    configurations that differ only in [debug] give the same result, the
    same requests in the same order, the same speech and shell commands, and
    leave the backend in the same state. *)
Theorem X11_debug_only_prints
    (W : Type) (requests : Requests W) (cfg : Config) (d : Z)
    (self : MyAssistant) (said : string) (w : W) :
  let run :=
    process_event requests cfg self (ON_RECOGNIZING_SPEECH_FINISHED (Some said)) w in
  let run' :=
    process_event requests (set_debug d cfg) self
      (ON_RECOGNIZING_SPEECH_FINISHED (Some said)) w in
  result_of run = result_of run'
  /\ world_of run = world_of run'
  /\ filter audible (trace_of run) = filter audible (trace_of run').
Proof.
  cbv zeta.
  destruct (PyStr.startswith (PyStr.lower said) (custom_hotword cfg)) eqn:Hhot.
  - rewrite (process_event_hot requests cfg _ _ _ Hhot).
    rewrite (process_event_hot requests (set_debug d cfg) _ _ _ Hhot).
    rewrite !result_heard, !world_heard, !trace_heard.
    destruct (alike_dispatch requests cfg d (command_text said) w) as (Hr & Hw & Ht).
    cbn [filter audible]. rewrite Hr, Hw, Ht. auto.
  - rewrite (process_event_cold requests cfg _ _ _ Hhot).
    rewrite (process_event_cold requests (set_debug d cfg) _ _ _ Hhot).
    auto.
Qed.

(* ------------------------------------------------------------------ *)
(** ** The session *)

Section Session_facts.

Context {W : Type}.
Variable requests : Requests W.
Variable cfg : Config.

Lemma quiet_no_start (t : list effect) : Forall quiet t -> filter is_start t = [].
Proof.
  induction 1 as [|e t He _ IH]; [reflexivity|].
  cbn. rewrite IH. destruct e; try reflexivity. now destruct He.
Qed.

Lemma react_flag self s w self' :
  result_of (react requests cfg self s w) = Returned self' ->
  can_start_conversation self' = flag_step (can_start_conversation self) s.
Proof.
  destruct s as [event|]; cbn [react flag_step].
  - destruct event as [| | |[said|]| |[[|]|]|]; cbn [process_event flag_step];
      try (cbn; now intros [= <-]); try (cbn; discriminate).
    + unfold bind, ret, result_of, emit, print.
      destruct (stdout_isatty requests); cbn; now intros [= <-].
    + unfold bind, ret, result_of.
      destruct (recognized requests cfg said w) as [[[[]|e] w1] t1]; cbn;
        [now intros [= <-] | discriminate].
  - unfold on_button_pressed.
    destruct self as [[|]]; cbn; now intros [= <-].
Qed.

Lemma react_starts self s w :
  filter is_start (trace_of (react requests cfg self s w))
  = match s with
    | Pressed => if can_start_conversation self then [StartConversation] else []
    | _ => []
    end.
Proof.
  destruct s as [event|]; cbn [react].
  - destruct event as [| | |[said|]| |[[|]|]|]; cbn [process_event]; try reflexivity.
    + unfold bind, ret, emit, print. destruct (stdout_isatty requests); reflexivity.
    + apply quiet_no_start.
      pose proof (quiet_recognized requests cfg said w) as Hq.
      cbn. unfold bind, ret, trace_of in *.
      destruct (recognized requests cfg said w) as [[[[]|e] w1] t1]; cbn in *;
        [now rewrite app_nil_r | exact Hq].
  - unfold on_button_pressed. destruct (can_start_conversation self); reflexivity.
Qed.

Lemma session_flag stimuli : forall self w self',
  result_of (session requests cfg self stimuli w) = Returned self' ->
  can_start_conversation self'
  = fold_left flag_step stimuli (can_start_conversation self)
  /\ List.length (filter is_start (trace_of (session requests cfg self stimuli w)))
     = presses_while_ready (can_start_conversation self) stimuli.
Proof.
  induction stimuli as [|s rest IH]; intros self w self'; cbn [session].
  - cbn. now intros [= <-].
  - pose proof (react_flag self s w) as Hflag.
    pose proof (react_starts self s w) as Hstarts.
    unfold bind, result_of, trace_of in *.
    destruct (react requests cfg self s w) as [[[self1|e] w1] t1]; cbn [fst snd] in *;
      [|discriminate].
    specialize (IH self1 w1 self').
    destruct (session requests cfg self1 rest w1) as [[r w2] t2]; cbn [fst snd] in *.
    intros Hr. destruct (IH Hr) as [IHflag IHstarts].
    cbn [fold_left presses_while_ready].
    rewrite <- (Hflag self1 eq_refl), filter_app, length_app, Hstarts, IHstarts.
    split; [exact IHflag|].
    f_equal. destruct s as [event|]; [now destruct event|].
    now destruct (can_start_conversation self).
Qed.

Lemma session_app first second : forall self w,
  session requests cfg self (first ++ second) w
  = bind (session requests cfg self first)
      (fun self' => session requests cfg self' second) w.
Proof.
  induction first as [|s first IH]; intros self w; cbn [session app].
  - unfold bind, ret. destruct (session requests cfg self second w) as [[r w'] t].
    reflexivity.
  - unfold bind in *.
    destruct (react requests cfg self s w) as [[[self1|e] w1] t1]; [|reflexivity].
    rewrite IH.
    destruct (session requests cfg self1 first w1) as [[[self2|e] w2] t2].
    + destruct (session requests cfg self2 second w2) as [[r w3] t3].
      now rewrite app_assoc.
    + reflexivity.
Qed.

End Session_facts.

(** X12: after a run of events and presses that ends normally, the flag is
    what the last start-up, turn start or turn end among them left (or what it
    was, if there was none), and the conversations started are the presses
    that found the flag up.  A press does not lower the flag: until a turn
    start is delivered, every further press starts a conversation again. *)
Theorem X12_flag_follows_the_events
    (W : Type) (requests : Requests W) (cfg : Config)
    (self self' : MyAssistant) (stimuli : list stimulus) (w : W) :
  let run := session requests cfg self stimuli w in
  result_of run = Returned self' ->
  can_start_conversation self'
  = fold_left flag_step stimuli (can_start_conversation self)
  /\ List.length (filter is_start (trace_of run))
     = presses_while_ready (can_start_conversation self) stimuli
  /\ presses_while_ready true [Pressed; Pressed] = 2%nat
  /\ presses_while_ready true [Pressed; Delivered ON_CONVERSATION_TURN_STARTED; Pressed]
     = 1%nat.
Proof.
  cbv zeta. intros Hr.
  destruct (session_flag requests cfg stimuli self w self' Hr) as [Hflag Hstarts].
  repeat split; assumption.
Qed.

Lemma X12_witness :
  let stimuli :=
    [Pressed; Delivered ON_START_FINISHED; Pressed; Pressed;
     Delivered ON_CONVERSATION_TURN_STARTED; Pressed;
     Delivered (ON_RECOGNIZING_SPEECH_FINISHED (Some "Home turn on all lights"));
     Delivered ON_CONVERSATION_TURN_FINISHED] in
  let run := session (canned "NULL" 200) shipped init stimuli tt in
  can_start_conversation {| can_start_conversation := true |}
  = fold_left flag_step stimuli (can_start_conversation init)
  /\ List.length (filter is_start (trace_of run)) = 2%nat.
Proof.
  cbv zeta.
  destruct (X12_flag_follows_the_events unit (canned "NULL" 200) shipped init
              {| can_start_conversation := true |}
              [Pressed; Delivered ON_START_FINISHED; Pressed; Pressed;
               Delivered ON_CONVERSATION_TURN_STARTED; Pressed;
               Delivered (ON_RECOGNIZING_SPEECH_FINISHED (Some "Home turn on all lights"));
               Delivered ON_CONVERSATION_TURN_FINISHED] tt eq_refl)
    as (Hflag & Hstarts & _).
  split; [exact Hflag | exact Hstarts].
Defined.

(** X13: an exception ends the loop over the event stream.  Once the
    handler has raised on an event, no later event is handled: the run is the
    run up to that event.  A fatal assistant error raises [SystemExit] with
    code 1 and does nothing else; an error that is not fatal, or that comes
    without arguments, changes nothing. *)
Theorem X13_an_exception_ends_the_loop
    (W : Type) (requests : Requests W) (cfg : Config)
    (self : MyAssistant) (events later : list Event) (w : W) :
  let before := session requests cfg self (map Delivered events) w in
  (forall e, result_of before = Raised e ->
             session requests cfg self (map Delivered (events ++ later)) w = before)
  /\ (forall self', result_of before = Returned self' ->
        session requests cfg self
          (map Delivered (events ++ ON_ASSISTANT_ERROR (Some true) :: later)) w
        = (Raised (SystemExit 1), world_of before, trace_of before)
        /\ session requests cfg self
             (map Delivered (events ++ [ON_ASSISTANT_ERROR (Some false);
                                        ON_ASSISTANT_ERROR None])) w
           = before).
Proof.
  cbv zeta. split.
  - intros e He. rewrite map_app, session_app. unfold bind, result_of in *.
    destruct (session requests cfg self (map Delivered events) w) as [[[s|e'] w1] t1];
      [discriminate | reflexivity].
  - intros self' Hr. rewrite !map_app, !session_app.
    unfold bind, result_of, world_of, trace_of in *.
    destruct (session requests cfg self (map Delivered events) w) as [[[s|e'] w1] t1];
      [|discriminate].
    cbn. rewrite !app_nil_r. auto.
Qed.

(* ------------------------------------------------------------------ *)
(** ** States that stay states *)

Lemma nth_split_plain s n field :
  nth_error (PyStr.split "," s) n = Some field -> PyStr.count "," field = 0%nat.
Proof.
  intros H. pose proof (split_fields_plain "," s) as Hall.
  rewrite Forall_forall in Hall. apply Hall. eapply nth_error_In, H.
Qed.

Lemma split_three hue saturation brightness :
  PyStr.count "," hue = 0%nat ->
  PyStr.count "," saturation = 0%nat ->
  PyStr.count "," brightness = 0%nat ->
  PyStr.split "," (hue ++ "," ++ saturation ++ "," ++ brightness)
  = [hue; saturation; brightness].
Proof.
  intros Hh Hs Hb.
  change (hue ++ "," ++ saturation ++ "," ++ brightness)
    with (hue ++ String "," (saturation ++ String "," brightness)).
  rewrite (PyStrFacts.split_app _ _ _ Hh), (PyStrFacts.split_app _ _ _ Hs).
  now rewrite (PyStrFacts.split_plain _ _ Hb).
Qed.

(** X14: brightness commands keep a well-formed state well formed.  When
    the fetched state is a hue and a saturation without commas and a printed
    brightness between 0 and 100, the command returns, and the value it
    pushes is again of that form, with the same hue and saturation: split at
    the commas it gives these three fields, and its brightness reads back as
    the integer that was printed, between 0 and 100. *)
Theorem X14_brightness_keeps_the_state_well_formed
    (W : Type) (requests : Requests W) (cfg : Config)
    (self : MyAssistant) (said : string) (w : W) (up : bool)
    (color hue saturation : string) (b : Z) :
  let text := command_text said in
  let run :=
    process_event requests cfg self (ON_RECOGNIZING_SPEECH_FINISHED (Some said)) w in
  let b' := new_brightness up b in
  PyStr.startswith (PyStr.lower said) (custom_hotword cfg) = true ->
  adjust_verb up text = true ->
  brightness_scope text = true ->
  resolves_color cfg text color ->
  fetched requests cfg color w = recombine hue saturation b ->
  PyStr.count "," hue = 0%nat ->
  PyStr.count "," saturation = 0%nat ->
  0 <= b <= 100 ->
  result_of run = Returned self
  /\ network_calls (trace_of run)
     = [Get (state_url cfg color); Post (item_url cfg color) (recombine hue saturation b')]
  /\ PyStr.split "," (recombine hue saturation b') = [hue; saturation; PyStr.str b']
  /\ PyStr.int (PyStr.str b') = Some b'
  /\ 0 <= b' <= 100.
Proof.
  cbv zeta. intros Hhot Hverb Hscope Hres Hstate Hh Hs Hb.
  rewrite (process_event_hot _ _ _ _ _ Hhot), result_heard, network_calls_heard.
  rewrite (adjust_run _ _ _ _ _ _ Hverb Hscope Hres), Hstate.
  rewrite (split_recombine _ _ _ Hh Hs), (PyStrFacts.int_str_percent _ Hb).
  rewrite network_calls_fetch_then_send.
  assert (Hb' : 0 <= new_brightness up b <= 100).
  { unfold new_brightness. destruct up.
    - destruct (b + 25 >? 100) eqn:E;
        [lia | rewrite Z.gtb_ltb in E; apply Z.ltb_ge in E; lia].
    - destruct (b - 25 <? 0) eqn:E; [lia | apply Z.ltb_ge in E; lia]. }
  repeat split; auto using split_recombine, PyStrFacts.int_str_percent; lia.
Qed.

Lemma X14_witness :
  let run := hear "120,50,90" 200 "Home raise the office light brightness" in
  result_of run = Returned init
  /\ network_calls (trace_of run)
     = [Get (state_url shipped "hue_0210_00178828e0d0_1_color");
        Post (item_url shipped "hue_0210_00178828e0d0_1_color")
          (recombine "120" "50" (new_brightness true 90))]
  /\ PyStr.split "," (recombine "120" "50" (new_brightness true 90))
     = ["120"; "50"; PyStr.str (new_brightness true 90)]
  /\ PyStr.int (PyStr.str (new_brightness true 90)) = Some (new_brightness true 90)
  /\ 0 <= new_brightness true 90 <= 100.
Proof.
  apply (X14_brightness_keeps_the_state_well_formed unit (canned "120,50,90" 200)
           shipped init "Home raise the office light brightness" tt true
           "hue_0210_00178828e0d0_1_color" "120" "50" 90);
    try reflexivity.
  - exists 0%nat. split; reflexivity.
  - lia.
Defined.

(** X15: the value a colour command pushes decodes to the new colour and
    the old brightness.  When the fetched state has a third field, the
    command returns and the pushed value splits at the commas into exactly
    three fields: the hue of the colour, "100", and that third field, also
    when the fetched state had more than three fields. *)
Theorem X15_color_pushes_a_three_field_state
    (W : Type) (requests : Requests W) (cfg : Config)
    (self : MyAssistant) (said : string) (w : W)
    (color temp hue brightness : string) :
  let text := command_text said in
  let run :=
    process_event requests cfg self (ON_RECOGNIZING_SPEECH_FINISHED (Some said)) w in
  PyStr.startswith (PyStr.lower said) (custom_hotword cfg) = true ->
  single_light_direct text = true ->
  resolves cfg text color temp ->
  switch_word text = false ->
  color_word text = Some hue ->
  nth_error (PyStr.split "," (fetched requests cfg color w)) 2 = Some brightness ->
  exists pushed,
    network_calls (trace_of run)
    = [Get (state_url cfg color); Post (item_url cfg color) pushed]
    /\ PyStr.split "," pushed = [hue; "100"; brightness].
Proof.
  cbv zeta. intros Hhot Hsingle Hres Hsw Hcw Hfield.
  rewrite (process_event_hot _ _ _ _ _ Hhot), network_calls_heard.
  rewrite (dispatch_specific_light _ _ _ _ Hsingle).
  rewrite (color_run _ _ _ _ _ _ _ Hres Hsw Hcw), Hfield.
  rewrite network_calls_fetch_then_send.
  eexists. split; [reflexivity|].
  change (hue ++ ",100," ++ brightness) with (hue ++ "," ++ "100" ++ "," ++ brightness).
  apply split_three; [|reflexivity|exact (nth_split_plain _ _ _ Hfield)].
  unfold color_word in Hcw.
  destruct (PyStr.contains " red " (command_text said)); [now injection Hcw as <-|].
  destruct (PyStr.contains " yellow " (command_text said)); [now injection Hcw as <-|].
  destruct (PyStr.contains " blue " (command_text said)); [now injection Hcw as <-|].
  destruct (PyStr.contains " pink " (command_text said)); [now injection Hcw as <-|].
  destruct (PyStr.contains " green " (command_text said)); [now injection Hcw as <-|].
  discriminate.
Qed.

Lemma X15_witness :
  let run := hear "120,50,75,extra" 200 "Home turn the office light blue" in
  exists pushed,
    network_calls (trace_of run)
    = [Get (state_url shipped "hue_0210_00178828e0d0_1_color");
       Post (item_url shipped "hue_0210_00178828e0d0_1_color") pushed]
    /\ PyStr.split "," pushed = ["260"; "100"; "75"].
Proof.
  apply (X15_color_pushes_a_three_field_state unit (canned "120,50,75,extra" 200)
           shipped init "Home turn the office light blue" tt
           "hue_0210_00178828e0d0_1_color"
           "hue_0210_00178828e0d0_1_color_temperature" "260" "75");
    try reflexivity.
  exists 0%nat. repeat split; reflexivity.
Defined.

(* ------------------------------------------------------------------ *)
(** ** Repeated commands *)

Section Repeats.

Context {W : Type}.
Variable requests : Requests W.
Variable cfg : Config.

Lemma posts_send_report item state r :
  filter is_post (send_report cfg item state r) = [].
Proof.
  unfold send_report.
  destruct (truthy (debug cfg)); cbn;
    destruct ((status_code r =? 400) || (status_code r =? 404)); reflexivity.
Qed.

Lemma group_on_run self said w :
  PyStr.startswith (PyStr.lower said) (custom_hotword cfg) = true ->
  direct_verb (command_text said) = true ->
  all_lights (command_text said) = true ->
  PyStr.contains " on " (command_text said) = true ->
  process_event requests cfg self (ON_RECOGNIZING_SPEECH_FINISHED (Some said)) w
  = heard self said (openhab_send requests cfg (all_lights_group cfg) "ON" w).
Proof.
  intros Hhot Hd Hall Hon.
  rewrite (process_event_hot _ _ _ _ _ Hhot). f_equal.
  unfold dispatch, direct_state_group.
  unfold direct_verb in Hd. unfold all_lights in Hall.
  now rewrite Hd, Hall, Hon.
Qed.

Lemma repeated_group_on self said n : forall w,
  PyStr.startswith (PyStr.lower said) (custom_hotword cfg) = true ->
  direct_verb (command_text said) = true ->
  all_lights (command_text said) = true ->
  PyStr.contains " on " (command_text said) = true ->
  let run :=
    session requests cfg self
      (repeat (Delivered (ON_RECOGNIZING_SPEECH_FINISHED (Some said))) n) w in
  result_of run = Returned self
  /\ network_calls (trace_of run)
     = repeat (Post (item_url cfg (all_lights_group cfg)) "ON") n.
Proof.
  cbv zeta. induction n as [|n IH]; intros w Hhot Hd Hall Hon; cbn [repeat session].
  - split; reflexivity.
  - cbn [react]. unfold bind.
    rewrite (group_on_run _ _ _ Hhot Hd Hall Hon), openhab_send_run.
    cbn [heard].
    destruct (IH (snd (requests_post requests (item_url cfg (all_lights_group cfg)) "ON" w))
                Hhot Hd Hall Hon) as [IHr IHc].
    unfold result_of, trace_of, network_calls in *.
    destruct (session requests cfg self
                (repeat (Delivered (ON_RECOGNIZING_SPEECH_FINISHED (Some said))) n)
                (snd (requests_post requests (item_url cfg (all_lights_group cfg)) "ON" w)))
      as [[r w2] t2].
    cbn [fst snd] in *. split; [exact IHr|].
    cbn [app filter is_network]. rewrite filter_app.
    fold (network_calls (send_report cfg (all_lights_group cfg) "ON"
            (fst (requests_post requests (item_url cfg (all_lights_group cfg)) "ON" w)))).
    rewrite network_calls_send_report. cbn [app]. now rewrite IHc.
Qed.

End Repeats.

(** X16: nothing is remembered between utterances.  The same command to
    switch all the lights on, recognized [n] times in a row, is pushed [n]
    times: every delivery makes its own request, whatever the backend
    answered before. *)
Theorem X16_repeated_commands_are_pushed_again
    (W : Type) (requests : Requests W) (cfg : Config)
    (self : MyAssistant) (said : string) (n : nat) (w : W) :
  let text := command_text said in
  let run :=
    session requests cfg self
      (repeat (Delivered (ON_RECOGNIZING_SPEECH_FINISHED (Some said))) n) w in
  PyStr.startswith (PyStr.lower said) (custom_hotword cfg) = true ->
  direct_verb text = true ->
  all_lights text = true ->
  PyStr.contains " on " text = true ->
  result_of run = Returned self
  /\ network_calls (trace_of run)
     = repeat (Post (item_url cfg (all_lights_group cfg)) "ON") n.
Proof.
  cbv zeta. intros Hhot Hd Hall Hon.
  now apply repeated_group_on.
Qed.

Lemma X16_witness :
  let run :=
    session (canned "NULL" 404) shipped init
      (repeat (Delivered (ON_RECOGNIZING_SPEECH_FINISHED
                            (Some "Home turn on all the lights"))) 3) tt in
  result_of run = Returned init
  /\ network_calls (trace_of run)
     = repeat (Post (item_url shipped (all_lights_group shipped)) "ON") 3.
Proof.
  apply (X16_repeated_commands_are_pushed_again unit (canned "NULL" 404) shipped init
           "Home turn on all the lights" 3 tt);
    reflexivity.
Defined.
